(** * OpenAI to NVIDIA NIM proxy: a shallow embedding of [api/server.js]

    The handler exported by [api/server.js] (lines 33 to 249 of the source) is
    embedded as pure functions; what follows it in the file is the tail of an
    older copy of the same code and is not part of the exported handler.
    JavaScript strings are kept as [string]s in
    their UTF-8 form, so the ASCII literals of the source can be written as
    they are; a [Buffer] is a [string] of raw octets.  The two process-wide
    toggles are the fields of [Config], so that both states can be examined;
    [source_config] holds the values the source gives them. *)

From Stdlib Require Import String Ascii List ZArith NArith Bool.
From Stdlib Require Import DecimalString Lia.
Import ListNotations.

Set Warnings "-register-all".

Local Open Scope list_scope.
Local Open Scope string_scope.

(** ** Characters and text *)

Definition LF : ascii := "010"%char.
Definition DQUOTE : ascii := "034"%char.
Definition nl : string := String LF "".

(** [q s] is [s] with every apostrophe turned into a double quote; it keeps
    the JSON texts of the examples readable. *)
Fixpoint q (s : string) : string :=
  match s with
  | "" => ""
  | String c s' => String (if Ascii.eqb c "'"%char then DQUOTE else c) (q s')
  end.

Module JSString.

(** [String.prototype.startsWith] *)
Fixpoint startsWith (s p : string) : bool :=
  match p, s with
  | "", _ => true
  | String _ _, "" => false
  | String a p', String b s' => Ascii.eqb a b && startsWith s' p'
  end.

(** [String.prototype.includes] *)
Fixpoint includes (s p : string) : bool :=
  startsWith s p ||
  match s with
  | "" => false
  | String _ s' => includes s' p
  end.

(** [String.prototype.slice(n)] for a non-negative [n] *)
Fixpoint slice (n : nat) (s : string) : string :=
  match n, s with
  | O, _ => s
  | S _, "" => ""
  | S n', String _ s' => slice n' s'
  end.

(** [String.prototype.split(c)] for a one-character separator: the list it
    returns is never empty. *)
Fixpoint split (c : ascii) (s : string) : list string :=
  match s with
  | "" => [""]
  | String a s' =>
      if Ascii.eqb a c then "" :: split c s'
      else match split c s' with
           | [] => [String a ""]
           | h :: t => String a h :: t
           end
  end.

(** [String.prototype.toLowerCase] on the UTF-8 form of a text: the letters
    A to Z, and the two characters outside ASCII whose lower-case form has an
    ASCII letter in it, U+0130 (i and U+0307) and U+212A (k).  The other
    characters outside ASCII are left as they are, which does not change
    where an ASCII word occurs in the result. *)
Definition lower_ascii (c : ascii) : ascii :=
  let n := nat_of_ascii c in
  if (65 <=? n)%nat && (n <=? 90)%nat then ascii_of_nat (n + 32) else c.

Fixpoint toLowerCase (s : string) : string :=
  match s with
  | "" => ""
  | String c s' =>
      let plain := String (lower_ascii c) (toLowerCase s') in
      match nat_of_ascii c, s' with
      | 196%nat, String c1 s1 =>
          if Nat.eqb (nat_of_ascii c1) 176
          then String "i"%char (String "204"%char (String "135"%char (toLowerCase s1)))
          else plain
      | 226%nat, String c1 (String c2 s2) =>
          if Nat.eqb (nat_of_ascii c1) 132 && Nat.eqb (nat_of_ascii c2) 170
          then String "k"%char (toLowerCase s2)
          else plain
      | _, _ => plain
      end
  end.

End JSString.

(** [Array.prototype.pop]: the removed last element ([None] for [undefined])
    and the array that is left. *)
Fixpoint pop {A : Type} (l : list A) : option A * list A :=
  match l with
  | [] => (None, [])
  | x :: l' =>
      match l' with
      | [] => (Some x, [])
      | _ :: _ => let '(o, r) := pop l' in (o, x :: r)
      end
  end.

(** ** Buffers

    [axios] hands the stream handler [Buffer]s, and the handler turns each of
    them into text on its own with [chunk.toString()].  That is the UTF-8
    decoder of the platform: an octet sequence that is not well formed, such
    as a character cut by the end of the buffer, becomes U+FFFD. *)

Module Buffer.

Definition t := string.

Record decoder := mkDecoder {
  pending : string;   (* the octets of the character being read *)
  needed : nat;       (* continuation octets still expected *)
  lower : N;          (* bounds for the next continuation octet *)
  upper : N
}.

Definition idle : decoder := mkDecoder "" 0 128 191.

Definition REPLACEMENT : string :=
  String "239"%char (String "191"%char (String "189"%char "")).

Definition between (lo hi b : N) : bool := (lo <=? b)%N && (b <=? hi)%N.

(** An octet met when no character is under way. *)
Definition lead (c : ascii) : string * decoder :=
  let b := N_of_ascii c in
  let start n lo hi := ("", mkDecoder (String c "") n lo hi) in
  if (b <=? 127)%N then (String c "", idle)
  else if between 194 223 b then start 1%nat 128%N 191%N
  else if (b =? 224)%N then start 2%nat 160%N 191%N
  else if (b =? 237)%N then start 2%nat 128%N 159%N
  else if between 225 239 b then start 2%nat 128%N 191%N
  else if (b =? 240)%N then start 3%nat 144%N 191%N
  else if (b =? 244)%N then start 3%nat 128%N 143%N
  else if between 241 243 b then start 3%nat 128%N 191%N
  else (REPLACEMENT, idle).

Definition step (d : decoder) (c : ascii) : string * decoder :=
  match needed d with
  | O => lead c
  | S n =>
      if between (lower d) (upper d) (N_of_ascii c) then
        match n with
        | O => (pending d ++ String c "", idle)
        | S _ => ("", mkDecoder (pending d ++ String c "") n 128 191)
        end
      else
        let '(out, d') := lead c in (REPLACEMENT ++ out, d')
  end.

Definition flush (d : decoder) : string :=
  match needed d with
  | O => ""
  | S _ => REPLACEMENT
  end.

Fixpoint decode (d : decoder) (b : t) : string :=
  match b with
  | "" => flush d
  | String c b' => let '(out, d') := step d c in out ++ decode d' b'
  end.

(** The decoder state reached at the end of the octets [b]. *)
Fixpoint run (d : decoder) (b : t) : decoder :=
  match b with
  | "" => d
  | String c b' => run (snd (step d c)) b'
  end.

(** [Buffer.prototype.toString()] *)
Definition toString (b : t) : string := decode idle b.

(** A buffer ends on a character boundary when no character is left open. *)
Definition complete (b : t) : bool := Nat.eqb (needed (run idle b)) 0.

(** Octets below 128 are characters of their own. *)
Fixpoint ascii_only (b : t) : bool :=
  match b with
  | "" => true
  | String c b' => (N_of_ascii c <=? 127)%N && ascii_only b'
  end.

End Buffer.

(** ** JavaScript values

    The values [JSON.parse] can build, [undefined], and the native functions
    that every object inherits from [Object.prototype].  A number is kept as
    the decimal [m * 10 ^ e] that was read; of its rounding to a binary64 the
    model keeps what the handler can see, which is whether it rounds to zero.
    An object is the list of its own properties in insertion order. *)

Module JS.

Inductive value : Type :=
| VUndefined
| VNull
| VBool (b : bool)
| VNum (m e : Z)
| VStr (s : string)
| VArr (elems : list value)
| VObj (props : list (string * value))
| VFun (name : string).

Inductive error : Type :=
| TypeError (msg : string)
| SyntaxError (msg : string)
| AxiosError (msg : string) (status : option Z).

Inductive result (A : Type) : Type :=
| Ok (a : A)
| Throw (e : error).
Arguments Ok {A} a.
Arguments Throw {A} e.

Definition bind {A B : Type} (r : result A) (k : A -> result B) : result B :=
  match r with
  | Ok a => k a
  | Throw e => Throw e
  end.

(** Whether the decimal [m * 10 ^ e] is read as 0 or -0: it is zero, or so
    small that the nearest binary64 is zero, which is the case up to
    [2 ^ -1075].  The first test for a negative [e] settles the decimals that
    are far below that bound without computing a large power. *)
Definition reads_as_zero (m e : Z) : bool :=
  if Z.eqb m 0 then true
  else if Z.leb 0 e then false
  else if Z.leb (Z.log2 (Z.abs m) + 1077) (3 * - e) then true
  else Z.leb (Z.abs m * 2 ^ 1075) (10 ^ (- e)).

(** [ToBoolean] *)
Definition truthy (v : value) : bool :=
  match v with
  | VUndefined | VNull => false
  | VBool b => b
  | VNum m e => negb (reads_as_zero m e)
  | VStr s => negb (String.eqb s "")
  | VArr _ | VObj _ | VFun _ => true
  end.

(** [a || b] *)
Definition or (a b : value) : value := if truthy a then a else b.

Definition nullish (v : value) : bool :=
  match v with
  | VUndefined | VNull => true
  | _ => false
  end.

(** *** Own properties *)

Fixpoint lookup (k : string) (l : list (string * value)) : option value :=
  match l with
  | [] => None
  | (k', v) :: l' => if String.eqb k' k then Some v else lookup k l'
  end.

Fixpoint set_field (k : string) (v : value) (l : list (string * value))
  : list (string * value) :=
  match l with
  | [] => [(k, v)]
  | (k', v') :: l' =>
      if String.eqb k' k then (k, v) :: l' else (k', v') :: set_field k v l'
  end.

Fixpoint delete_field (k : string) (l : list (string * value))
  : list (string * value) :=
  match l with
  | [] => []
  | (k', v') :: l' =>
      if String.eqb k' k then delete_field k l' else (k', v') :: delete_field k l'
  end.

(** The first character of a text (its octets in UTF-8). *)
Definition first_char (s : string) : string :=
  match s with
  | "" => ""
  | String c s' =>
      let n := N_of_ascii c in
      let k := if (n <? 192)%N then 0%nat
               else if (n <? 224)%N then 1%nat
               else if (n <? 240)%N then 2%nat else 3%nat in
      String c (substring 0 k s')
  end.

(** [v[k]] for a [v] that is neither [null] nor [undefined].  The handler
    reads the index [0] and the names [choices], [delta], [content],
    [reasoning_content], [message], [index], [role], [finish_reason] and
    [usage]; of these an array or a text only has [0]. *)
Definition prop (v : value) (k : string) : value :=
  match v with
  | VObj l => match lookup k l with Some x => x | None => VUndefined end
  | VArr l => if String.eqb k "0" then hd VUndefined l else VUndefined
  | VStr s =>
      if String.eqb k "0" && negb (String.eqb s "") then VStr (first_char s)
      else VUndefined
  | _ => VUndefined
  end.

(** [v.k]: a TypeError on [null] and [undefined] *)
Definition get (v : value) (k : string) : result value :=
  if nullish v then Throw (TypeError ("Cannot read properties of " ++
                                      (match v with VNull => "null" | _ => "undefined" end)
                                      ++ " (reading '" ++ k ++ "')"))
  else Ok (prop v k).

(** [v?.k] *)
Definition opt_get (v : value) (k : string) : value :=
  if nullish v then VUndefined else prop v k.

(** [v.k = x] outside strict mode: an object gets or changes the property;
    on a primitive the assignment is dropped, and on an array a name that is
    not an index is invisible to [JSON.stringify]. *)
Definition assign (k : string) (x : value) (v : value) : value :=
  match v with
  | VObj l => VObj (set_field k x l)
  | _ => v
  end.

(** [delete v.k] *)
Definition delete (k : string) (v : value) : value :=
  match v with
  | VObj l => VObj (delete_field k l)
  | _ => v
  end.

Definition has (k : string) (v : value) : bool :=
  match v with
  | VObj l => match lookup k l with Some _ => true | None => false end
  | _ => false
  end.

(** The value [v] after the object it holds at [k] went through [f]: objects
    are shared by reference, so a change made through [v.k] is seen in [v]. *)
Fixpoint modify_field (k : string) (f : value -> value)
  (l : list (string * value)) : list (string * value) :=
  match l with
  | [] => []
  | (k', v') :: l' =>
      if String.eqb k' k then (k', f v') :: l' else (k', v') :: modify_field k f l'
  end.

Definition modify (k : string) (f : value -> value) (v : value) : value :=
  match v with
  | VObj l => VObj (modify_field k f l)
  | VArr (x :: l) => if String.eqb k "0" then VArr (f x :: l) else v
  | _ => v
  end.

(** *** Conversion to text *)

Fixpoint zeros (n : nat) : string :=
  match n with
  | O => ""
  | S n' => String "0"%char (zeros n')
  end.

Fixpoint strip_zeros_rev (s : string) : string :=
  match s with
  | String c s' => if Ascii.eqb c "0"%char then strip_zeros_rev s' else s
  | "" => ""
  end.

Fixpoint rev_string (s : string) : string :=
  match s with
  | "" => ""
  | String c s' => rev_string s' ++ String c ""
  end.

Definition digits_of (n : N) : string := NilZero.string_of_uint (N.to_uint n).

(** [Number::toString] of the decimal [m * 10 ^ e], in positional notation.
    No statement of this file depends on the digits. *)
Definition Number_toString (m e : Z) : string :=
  if Z.eqb m 0 then "0"
  else
    let sign := if Z.ltb m 0 then "-" else "" in
    let d := digits_of (Z.abs_N m) in
    if Z.leb 0 e then sign ++ d ++ zeros (Z.to_nat e)
    else
      let k := Z.to_nat (- e) in
      let d' := zeros (S k - String.length d) ++ d in
      let n := (String.length d' - k)%nat in
      let frac := rev_string (strip_zeros_rev (rev_string (substring n k d'))) in
      sign ++ substring 0 n d' ++ (if String.eqb frac "" then "" else "." ++ frac).

(** The text that the conversion of a value to a string gives when it does
    not throw. *)
Fixpoint string_of (v : value) : string :=
  match v with
  | VUndefined => "undefined"
  | VNull => "null"
  | VBool true => "true"
  | VBool false => "false"
  | VNum m e => Number_toString m e
  | VStr s => s
  | VArr l =>
      (fix join (l : list value) : string :=
         match l with
         | [] => ""
         | x :: l' =>
             (match x with
              | VUndefined | VNull => ""
              | _ => string_of x
              end) ++
             (match l' with
              | [] => ""
              | _ :: _ => "," ++ join l'
              end)
         end) l
  | VObj _ => "[object Object]"
  | VFun name => "function " ++ name ++ "() { [native code] }"
  end.

(** Whether a value can be converted to a primitive.  An object that has an
    own property [toString] cannot: the property hides the inherited method,
    it is not callable (nothing read from JSON is), and the inherited
    [valueOf] gives back the object.  An array is converted by joining its
    elements, so it cannot when one of them cannot. *)
Fixpoint converts (v : value) : bool :=
  match v with
  | VObj l => match lookup "toString" l with Some _ => false | None => true end
  | VArr l =>
      (fix all (l : list value) : bool :=
         match l with
         | [] => true
         | x :: l' => converts x && all l'
         end) l
  | _ => true
  end.

(** [ToString], as [+] with a text and the lookup [o[v]] apply it: a
    TypeError when the value cannot be converted. *)
Definition ToString (v : value) : result string :=
  if converts v then Ok (string_of v)
  else Throw (TypeError "Cannot convert object to primitive value").

(** [a + b] when one of the two operands is a text; [a] is converted first. *)
Definition concat (a b : value) : result value :=
  bind (ToString a) (fun x =>
  bind (ToString b) (fun y => Ok (VStr (x ++ y)))).

End JS.

(** ** [JSON.parse]

    A recursive-descent reader of the JSON grammar.  Texts keep their UTF-8
    octets; a [\u] escape is written out in UTF-8 (a surrogate pair as one
    character).  A repeated name keeps the place of its first occurrence and
    the value of its last. *)

Module JSON.
Import JS.

Definition is_ws (c : ascii) : bool :=
  let n := nat_of_ascii c in
  Nat.eqb n 32 || Nat.eqb n 9 || Nat.eqb n 10 || Nat.eqb n 13.

Fixpoint skip_ws (s : string) : string :=
  match s with
  | String c s' => if is_ws c then skip_ws s' else s
  | "" => ""
  end.

Definition digit (c : ascii) : option N :=
  let n := N_of_ascii c in
  if Buffer.between 48 57 n then Some (n - 48)%N else None.

Definition hex (c : ascii) : option N :=
  let n := N_of_ascii c in
  if Buffer.between 48 57 n then Some (n - 48)%N
  else if Buffer.between 65 70 n then Some (n - 55)%N
  else if Buffer.between 97 102 n then Some (n - 87)%N
  else None.

(** The four hexadecimal digits of a [\u] escape. *)
Definition hex4 (s : string) : option (N * string) :=
  match s with
  | String a (String b (String c (String d r))) =>
      match hex a, hex b, hex c, hex d with
      | Some x, Some y, Some z, Some w => Some (((x * 16 + y) * 16 + z) * 16 + w, r)%N
      | _, _, _, _ => None
      end
  | _ => None
  end.

Definition octet (n : N) : string := String (ascii_of_N n) "".

Definition utf8 (cp : N) : string :=
  let cont n := octet (128 + N.land n 63) in
  if (cp <? 128)%N then octet cp
  else if (cp <? 2048)%N then octet (192 + N.shiftr cp 6) ++ cont cp
  else if (cp <? 65536)%N then
    octet (224 + N.shiftr cp 12) ++ cont (N.shiftr cp 6) ++ cont cp
  else
    octet (240 + N.shiftr cp 18) ++ cont (N.shiftr cp 12)
      ++ cont (N.shiftr cp 6) ++ cont cp.

(** A text from after its opening quote to its closing quote. *)
Fixpoint text (s : string) : option (string * string) :=
  match s with
  | "" => None
  | String c r =>
      let n := N_of_ascii c in
      if (n =? 34)%N then Some ("", r)
      else if (n <? 32)%N then None
      else if (n =? 92)%N then
        match r with
        | String e r' =>
            let simple (o : N) :=
              match text r' with
              | Some (t, r'') => Some (octet o ++ t, r'')
              | None => None
              end in
            match nat_of_ascii e with
            | 34%nat => simple 34%N
            | 92%nat => simple 92%N
            | 47%nat => simple 47%N
            | 98%nat => simple 8%N
            | 102%nat => simple 12%N
            | 110%nat => simple 10%N
            | 114%nat => simple 13%N
            | 116%nat => simple 9%N
            | 117%nat =>
                match r' with
                | String a (String b (String c' (String d r4))) =>
                    match hex4 (String a (String b (String c' (String d "")))) with
                    | Some (u, _) =>
                        let single :=
                          match text r4 with
                          | Some (t, r'') => Some (utf8 u ++ t, r'')
                          | None => None
                          end in
                        if Buffer.between 55296 56319 u then
                          match r4 with
                          | String b1 (String b2 (String h1 (String h2 (String h3 (String h4 r10))))) =>
                              if (N_of_ascii b1 =? 92)%N && (N_of_ascii b2 =? 117)%N then
                                match hex4 (String h1 (String h2 (String h3 (String h4 "")))) with
                                | Some (lo, _) =>
                                    if Buffer.between 56320 57343 lo then
                                      match text r10 with
                                      | Some (t, r'') =>
                                          Some (utf8 (65536 + (u - 55296) * 1024 + (lo - 56320)) ++ t, r'')
                                      | None => None
                                      end
                                    else single
                                | None => single
                                end
                              else single
                          | _ => single
                          end
                        else single
                    | None => None
                    end
                | _ => None
                end
            | _ => None
            end
        | "" => None
        end
      else
        match text r with
        | Some (t, r') => Some (String c t, r')
        | None => None
        end
  end.

(** A run of decimal digits: its value, its length, and what follows. *)
Fixpoint digits (acc : N) (len : nat) (s : string) : N * nat * string :=
  match s with
  | String c r =>
      match digit c with
      | Some d => digits (acc * 10 + d) (S len) r
      | None => (acc, len, s)
      end
  | "" => (acc, len, s)
  end.

Definition number (s : string) : option (value * string) :=
  let '(neg, s1) :=
    match s with
    | String "-"%char r => (true, r)
    | _ => (false, s)
    end in
  let int_part :=
    match s1 with
    | String "0"%char r => Some (0%N, r)
    | _ => match digits 0 0 s1 with
           | (_, O, _) => None
           | (n, S _, r) => Some (n, r)
           end
    end in
  match int_part with
  | None => None
  | Some (i, s2) =>
      let frac :=
        match s2 with
        | String "."%char r =>
            match digits i 0 r with
            | (_, O, _) => None
            | (n, S k, r') => Some (n, S k, r')
            end
        | _ => Some (i, O, s2)
        end in
      match frac with
      | None => None
      | Some (m, k, s3) =>
          let finish (e : Z) (r : string) :=
            Some (VNum (if neg then - Z.of_N m else Z.of_N m) (e - Z.of_nat k), r) in
          let exponent (sgn : Z) (r : string) :=
            match digits 0 0 r with
            | (_, O, _) => None
            | (x, S _, r') => finish (sgn * Z.of_N x)%Z r'
            end in
          match s3 with
          | String c r =>
              if Ascii.eqb c "e"%char || Ascii.eqb c "E"%char then
                match r with
                | String "+"%char r' => exponent 1%Z r'
                | String "-"%char r' => exponent (-1)%Z r'
                | _ => exponent 1%Z r
                end
              else finish 0%Z s3
          | "" => finish 0%Z s3
          end
      end
  end.

Definition keyword (w : string) (v : value) (s : string) : option (value * string) :=
  if JSString.startsWith s w then Some (v, JSString.slice (String.length w) s) else None.

Fixpoint parse_value (fuel : nat) (s : string) {struct fuel} : option (value * string) :=
  match fuel with
  | O => None
  | S f =>
      match skip_ws s with
      | "" => None
      | String c r =>
          match nat_of_ascii c with
          | 123%nat =>
              match skip_ws r with
              | String "}"%char r' => Some (VObj [], r')
              | r' => parse_members f [] r'
              end
          | 91%nat =>
              match skip_ws r with
              | String "]"%char r' => Some (VArr [], r')
              | r' => parse_elements f [] r'
              end
          | 34%nat =>
              match text r with
              | Some (t, r') => Some (VStr t, r')
              | None => None
              end
          | 116%nat => keyword "true" (VBool true) (String c r)
          | 102%nat => keyword "false" (VBool false) (String c r)
          | 110%nat => keyword "null" VNull (String c r)
          | _ => number (String c r)
          end
      end
  end
with parse_elements (fuel : nat) (acc : list value) (s : string) {struct fuel}
  : option (value * string) :=
  match fuel with
  | O => None
  | S f =>
      match parse_value f s with
      | None => None
      | Some (v, r) =>
          match skip_ws r with
          | String ","%char r' => parse_elements f (acc ++ [v])%list r'
          | String "]"%char r' => Some (VArr (acc ++ [v])%list, r')
          | _ => None
          end
      end
  end
with parse_members (fuel : nat) (acc : list (string * value)) (s : string) {struct fuel}
  : option (value * string) :=
  match fuel with
  | O => None
  | S f =>
      match skip_ws s with
      | String c r =>
          if (N_of_ascii c =? 34)%N then
            match text r with
            | None => None
            | Some (k, r1) =>
                match skip_ws r1 with
                | String ":"%char r2 =>
                    match parse_value f r2 with
                    | None => None
                    | Some (v, r3) =>
                        match skip_ws r3 with
                        | String ","%char r4 => parse_members f (set_field k v acc) r4
                        | String "}"%char r4 => Some (VObj (set_field k v acc), r4)
                        | _ => None
                        end
                    end
                | _ => None
                end
            end
          else None
      | "" => None
      end
  end.

(** [JSON.parse]: [None] stands for the SyntaxError it throws. *)
Definition parse (s : string) : option value :=
  match parse_value (2 * String.length s + 2) s with
  | Some (v, r) => if String.eqb (skip_ws r) "" then Some v else None
  | None => None
  end.

End JSON.

(** ** Configuration *)

Record Config := mkConfig {
  SHOW_REASONING : bool;
  ENABLE_THINKING_MODE : bool
}.

(** The values the two toggles have in the source. *)
Definition source_config : Config := mkConfig false false.

(** ** The stream handler *)

Module Stream.
Import JS.

(** What one call of [res.write] sends: [Raw s] is the text [s]; [Event d]
    is the frame made of "data: ", [JSON.stringify d] and two line feeds. *)
Inductive write : Type :=
| Raw (s : string)
| Event (data : value).

(** The two variables the handler of ['data'] closes over. *)
Record state := mkState {
  buffer : string;
  reasoningStarted : bool
}.

Definition initial : state := mkState "" false.

(** [data.choices?.[0]?.delta] *)
Definition delta_of (data : value) : result value :=
  bind (get data "choices") (fun choices =>
  Ok (opt_get (opt_get choices "0") "delta")).

(** A change made to the object [data.choices[0].delta], seen from [data]. *)
Definition with_delta (f : value -> value) (data : value) : value :=
  modify "choices" (modify "0" (modify "delta" f)) data.

(** The branch taken when [SHOW_REASONING] is set (lines 153 to 167): the
    text to show, or the TypeError of a [+] on a value that cannot be
    converted, and the value [reasoningStarted] has at that point.  The flag
    is assigned after the [+] of the same block, so a block that throws leaves
    it as the block found it. *)
Definition splice (started : bool) (reasoning content : value) : result value * bool :=
  let '(combined, started1) :=
    if truthy reasoning && negb started then
      match concat (VStr ("<think>" ++ nl)) reasoning with
      | Ok text => (Ok text, true)
      | Throw e => (Throw e, started)
      end
    else if truthy reasoning then (Ok reasoning, started)
    else (Ok (VStr ""), started) in
  match combined with
  | Throw e => (Throw e, started1)
  | Ok combined =>
      if truthy content && started1 then
        match bind (concat (VStr ("</think>" ++ nl ++ nl)) content) (concat combined) with
        | Ok text => (Ok text, false)
        | Throw e => (Throw e, started1)
        end
      else if truthy content then (concat combined content, started1)
      else (Ok combined, started1)
  end.

(** The body of the [try] block after [JSON.parse]: the event to re-serialize,
    or the exception that reaches the [catch], and the value of
    [reasoningStarted] afterwards. *)
Definition transform (cfg : Config) (started : bool) (data : value)
  : result value * bool :=
  match delta_of data with
  | Throw e => (Throw e, started)
  | Ok delta =>
      if truthy delta then
        let reasoning := prop delta "reasoning_content" in
        let content := prop delta "content" in
        if SHOW_REASONING cfg then
          match splice started reasoning content with
          | (Throw e, started') => (Throw e, started')
          | (Ok combined, started') =>
              if truthy combined then
                (Ok (with_delta
                       (fun d => delete "reasoning_content" (assign "content" combined d)) data),
                 started')
              else (Ok data, started')
          end
        else
          let content' := if truthy content then content else VStr "" in
          (Ok (with_delta
                 (fun d => delete "reasoning_content" (assign "content" content' d)) data),
           started)
      else (Ok data, started)
  end.

(** The callback of [lines.forEach]. *)
Definition process_line (cfg : Config) (started : bool) (line : string)
  : list write * bool :=
  if JSString.startsWith line "data: " then
    if JSString.includes line "[DONE]" then ([Raw (line ++ nl)], started)
    else
      match JSON.parse (JSString.slice 6 line) with
      | None => ([Raw (line ++ nl)], started)
      | Some data =>
          match transform cfg started data with
          | (Ok data', started') => ([Event data'], started')
          | (Throw _, started') => ([Raw (line ++ nl)], started')
          end
      end
  else ([], started).

(** The test the callback starts with. *)
Definition is_data (line : string) : bool := JSString.startsWith line "data: ".

Fixpoint forEach (cfg : Config) (started : bool) (lines : list string)
  : list write * bool :=
  match lines with
  | [] => ([], started)
  | line :: rest =>
      let '(w, started1) := process_line cfg started line in
      let '(ws, started2) := forEach cfg started1 rest in
      ((w ++ ws)%list, started2)
  end.

(** The handler once the chunk is text: the statements after
    [buffer += chunk.toString()]. *)
Definition on_text (cfg : Config) (st : state) (text : string)
  : list write * state :=
  let buffer1 := buffer st ++ text in
  let '(last, lines) := pop (JSString.split LF buffer1) in
  let buffer2 := match last with
                 | Some l => if String.eqb l "" then "" else l
                 | None => ""
                 end in
  let '(ws, started) := forEach cfg (reasoningStarted st) lines in
  (ws, mkState buffer2 started).

(** The handler of ['data']. *)
Definition on_data (cfg : Config) (st : state) (chunk : Buffer.t)
  : list write * state :=
  on_text cfg st (Buffer.toString chunk).

(** All the chunks of a response, in the order they arrive; ['end'] and
    ['error'] both close the response and write nothing. *)
Fixpoint feed (cfg : Config) (st : state) (chunks : list Buffer.t)
  : list write * state :=
  match chunks with
  | [] => ([], st)
  | chunk :: rest =>
      let '(w, st1) := on_data cfg st chunk in
      let '(ws, st2) := feed cfg st1 rest in
      ((w ++ ws)%list, st2)
  end.

Definition transduce (cfg : Config) (chunks : list Buffer.t) : list write :=
  fst (feed cfg initial chunks).

(** The [content] and [reasoning_content] of the delta of an emitted event. *)
Definition delta_field (k : string) (w : write) : value :=
  match w with
  | Event data => opt_get (opt_get (opt_get (opt_get data "choices") "0") "delta") k
  | Raw _ => VUndefined
  end.

Definition has_reasoning (w : write) : bool :=
  match w with
  | Event data => has "reasoning_content" (opt_get (opt_get (opt_get data "choices") "0") "delta")
  | Raw _ => false
  end.

End Stream.

(** ** The handler *)

Module Proxy.
Import JS.

Definition MODEL_MAPPING : list (string * string) :=
  [ ("gpt-3.5-turbo", "nvidia/llama-3.1-nemotron-ultra-253b-v1");
    ("gpt-4", "qwen/qwen3-coder-480b-a35b-instruct");
    ("gpt-4-turbo", "moonshotai/kimi-k2-instruct-0905");
    ("gpt-4o", "deepseek-ai/deepseek-v3.2");
    ("claude-3-opus", "openai/gpt-oss-120b");
    ("claude-3-sonnet", "openai/gpt-oss-20b");
    ("gemini-pro", "qwen/qwen3-next-80b-a3b-thinking") ].

Definition corsHeaders : list (string * string) :=
  [ ("Access-Control-Allow-Origin", "*");
    ("Access-Control-Allow-Methods", "GET, POST, OPTIONS");
    ("Access-Control-Allow-Headers", "Content-Type, Authorization") ].

Fixpoint mapped (k : string) (m : list (string * string)) : option string :=
  match m with
  | [] => None
  | (k', v) :: m' => if String.eqb k' k then Some v else mapped k m'
  end.

(** What an object literal inherits from [Object.prototype]: eleven native
    functions and [__proto__], which reads as [Object.prototype] itself, an
    object without enumerable properties. *)
Definition Object_prototype : list (string * value) :=
  [ ("constructor", VFun "Object");
    ("__defineGetter__", VFun "__defineGetter__");
    ("__defineSetter__", VFun "__defineSetter__");
    ("hasOwnProperty", VFun "hasOwnProperty");
    ("__lookupGetter__", VFun "__lookupGetter__");
    ("__lookupSetter__", VFun "__lookupSetter__");
    ("isPrototypeOf", VFun "isPrototypeOf");
    ("propertyIsEnumerable", VFun "propertyIsEnumerable");
    ("toString", VFun "toString");
    ("valueOf", VFun "valueOf");
    ("__proto__", VObj []);
    ("toLocaleString", VFun "toLocaleString") ].

(** [MODEL_MAPPING[model]]: the key is [model] as a text; a key of the
    mapping gives its value, and any other name what the object inherits
    under it, if anything. *)
Definition MODEL_MAPPING_at (model : value) : result value :=
  bind (ToString model) (fun key =>
  Ok (match mapped key MODEL_MAPPING with
      | Some m => VStr m
      | None =>
          match lookup key Object_prototype with
          | Some inherited => inherited
          | None => VUndefined
          end
      end)).

(** *** The backend, as the handler sees it through [axios] *)

Inductive reply : Type :=
| Reply (status : Z) (data : value) (chunks : list Buffer.t)
| NetworkError (msg : string).

(** The backend answers a posted body; [chunks] is what a streamed answer
    delivers, [data] the body of an answer that is not streamed.  The body is
    the value handed to [axios.post]; a property of it that is [undefined] or
    a function is left out when [axios] writes it as JSON. *)
Definition network := value -> reply.

Record axios_response := mkResponse {
  resp_status : Z;
  resp_data : value;
  resp_chunks : list Buffer.t
}.

(** [axios.post]: the promise is rejected when the request fails or when
    [validateStatus] refuses the status. *)
Definition axios_post (net : network) (validateStatus : Z -> bool) (payload : value)
  : result axios_response :=
  match net payload with
  | Reply status data chunks =>
      if validateStatus status then Ok (mkResponse status data chunks)
      else Throw (AxiosError ("Request failed with status code " ++ Number_toString status 0)
                             (Some status))
  | NetworkError msg => Throw (AxiosError msg None)
  end.

Definition default_validateStatus (status : Z) : bool :=
  (200 <=? status)%Z && (status <? 300)%Z.

(** *** Model selection (lines 77 to 104) *)

Definition LARGE : string := "meta/llama-3.1-405b-instruct".
Definition MEDIUM : string := "meta/llama-3.1-70b-instruct".
Definition SMALL : string := "meta/llama-3.1-8b-instruct".

Definition tier (modelLower : string) : string :=
  if JSString.includes modelLower "gpt-4" || JSString.includes modelLower "claude-opus"
     || JSString.includes modelLower "405b" then LARGE
  else if JSString.includes modelLower "claude" || JSString.includes modelLower "gemini"
          || JSString.includes modelLower "70b" then MEDIUM
  else SMALL.

Definition probe_payload (model : value) : value :=
  VObj [ ("model", model);
         ("messages", VArr [VObj [("role", VStr "user"); ("content", VStr "test")]]);
         ("max_tokens", VNum 1 0) ].

(** The probe confirms a model when the backend answers it with a 2xx. *)
Definition probe_confirms (net : network) (model : value) : bool :=
  match net (probe_payload model) with
  | Reply status _ _ => (200 <=? status)%Z && (status <? 300)%Z
  | NetworkError _ => false
  end.

(** [model.toLowerCase()] *)
Definition toLowerCase (model : value) : result string :=
  match model with
  | VStr s => Ok (JSString.toLowerCase s)
  | VUndefined => Throw (TypeError "Cannot read properties of undefined (reading 'toLowerCase')")
  | VNull => Throw (TypeError "Cannot read properties of null (reading 'toLowerCase')")
  | _ => Throw (TypeError "model.toLowerCase is not a function")
  end.

(** The backend model chosen for [model], and the bodies posted to the
    backend on the way, in order. *)
Definition resolve (net : network) (model : value) : result value * list value :=
  match MODEL_MAPPING_at model with
  | Throw e => (Throw e, [])
  | Ok nimModel =>
      if truthy nimModel then (Ok nimModel, [])
      else
        let nimModel1 :=
          match axios_post net (fun status => (status <? 500)%Z) (probe_payload model) with
          | Ok response =>
              if (200 <=? resp_status response)%Z && (resp_status response <? 300)%Z
              then model else nimModel
          | Throw _ => nimModel
          end in
        if truthy nimModel1 then (Ok nimModel1, [probe_payload model])
        else (bind (toLowerCase model) (fun modelLower => Ok (VStr (tier modelLower))),
              [probe_payload model])
  end.

(** *** The request sent to the backend (lines 107 to 114) *)

Definition nimRequest (cfg : Config) (nimModel messages temperature max_tokens stream : value)
  : value :=
  VObj [ ("model", nimModel);
         ("messages", messages);
         ("temperature", or temperature (VNum 6 (-1)));
         ("max_tokens", or max_tokens (VNum 9024 0));
         ("extra_body",
           if ENABLE_THINKING_MODE cfg
           then VObj [("chat_template_kwargs", VObj [("thinking", VBool true)])]
           else VUndefined);
         ("stream", or stream (VBool false)) ].

(** *** The answer that is not streamed (lines 197 to 223) *)

Definition choice (cfg : Config) (c : value) : result value :=
  bind (get c "message") (fun message =>
  let fullContent := or (opt_get message "content") (VStr "") in
  bind (if SHOW_REASONING cfg && truthy (opt_get message "reasoning_content") then
          bind (concat (VStr ("<think>" ++ nl)) (opt_get message "reasoning_content"))
            (fun opened =>
          bind (concat opened (VStr (nl ++ "</think>" ++ nl ++ nl))) (fun closed =>
          concat closed fullContent))
        else Ok fullContent) (fun fullContent1 =>
  bind (get message "role") (fun role =>
  Ok (VObj [ ("index", prop c "index");
             ("message", VObj [("role", role); ("content", fullContent1)]);
             ("finish_reason", prop c "finish_reason") ])))).

Fixpoint map_choices (cfg : Config) (cs : list value) : result (list value) :=
  match cs with
  | [] => Ok []
  | c :: cs' =>
      bind (choice cfg c) (fun c' =>
      bind (map_choices cfg cs') (fun cs'' => Ok (c' :: cs'')))
  end.

Definition openaiResponse (cfg : Config) (now : Z) (model data : value) : result value :=
  bind (get data "choices") (fun choices =>
  match choices with
  | VArr cs =>
      bind (map_choices cfg cs) (fun cs' =>
      Ok (VObj [ ("id", VStr ("chatcmpl-" ++ Number_toString now 0));
                 ("object", VStr "chat.completion");
                 ("created", VNum (now / 1000) 0);
                 ("model", model);
                 ("choices", VArr cs');
                 ("usage", or (prop data "usage")
                              (VObj [ ("prompt_tokens", VNum 0 0);
                                      ("completion_tokens", VNum 0 0);
                                      ("total_tokens", VNum 0 0) ])) ]))
  | VUndefined | VNull =>
      Throw (TypeError "Cannot read properties of undefined (reading 'map')")
  | _ => Throw (TypeError "response.data.choices.map is not a function")
  end).

(** *** Requests and responses *)

Record request := mkRequest {
  method : string;
  url : string;
  body : value
}.

Inductive payload : Type :=
| Json (v : value)
| EventStream (ws : list Stream.write).

(** [headers] are the ones the handler sets with [res.setHeader], in the
    order it sets them. *)
Record response := mkResponseOut {
  status : Z;
  headers : list (string * string);
  sent : payload
}.

(** The value of the header [name] of a response, if it has been set. *)
Definition header (name : string) (r : response) : option string :=
  mapped name (headers r).

Definition health (cfg : Config) : value :=
  VObj [ ("status", VStr "ok");
         ("service", VStr "OpenAI to NVIDIA NIM Proxy (Vercel)");
         ("reasoning_display", VBool (SHOW_REASONING cfg));
         ("thinking_mode", VBool (ENABLE_THINKING_MODE cfg)) ].

Definition models (now : Z) : value :=
  VObj [ ("object", VStr "list");
         ("data", VArr (map (fun kv : string * string =>
                               VObj [ ("id", VStr (fst kv));
                                      ("object", VStr "model");
                                      ("created", VNum now 0);
                                      ("owned_by", VStr "nvidia-nim-proxy") ])
                            MODEL_MAPPING)) ].

Definition error_envelope (message : string) (code : Z) : value :=
  VObj [ ("error", VObj [ ("message", VStr message);
                          ("type", VStr "invalid_request_error");
                          ("code", VNum code 0) ]) ].

Definition error_message (e : error) : string :=
  match e with
  | TypeError m | SyntaxError m | AxiosError m _ => m
  end.

(** [error.response?.status || 500] *)
Definition error_status (e : error) : Z :=
  match e with
  | AxiosError _ (Some s) => if Z.eqb s 0 then 500%Z else s
  | _ => 500%Z
  end.

(** The chat completions branch (lines 74 to 226): the response it sends, or
    the exception that reaches the [catch] of the handler; and the bodies it
    posted to the backend. *)
Definition chat (cfg : Config) (now : Z) (net : network) (hs : list (string * string))
  (req : request) : result response * list value :=
  if nullish (body req) then
    (Throw (TypeError ("Cannot destructure property 'model' of 'req.body' as it is " ++
                       (match body req with VNull => "null" | _ => "undefined" end) ++ ".")),
     [])
  else
    let model := prop (body req) "model" in
    let messages := prop (body req) "messages" in
    let temperature := prop (body req) "temperature" in
    let max_tokens := prop (body req) "max_tokens" in
    let stream := prop (body req) "stream" in
    match resolve net model with
    | (Throw e, calls) => (Throw e, calls)
    | (Ok nimModel, calls) =>
        let sent_body := nimRequest cfg nimModel messages temperature max_tokens stream in
        let calls1 := (calls ++ [sent_body])%list in
        match axios_post net default_validateStatus sent_body with
        | Throw e => (Throw e, calls1)
        | Ok r =>
            if truthy stream then
              (Ok (mkResponseOut 200
                     (hs ++ [ ("Content-Type", "text/event-stream");
                              ("Cache-Control", "no-cache");
                              ("Connection", "keep-alive") ])%list
                     (EventStream (Stream.transduce cfg (resp_chunks r)))),
               calls1)
            else
              (bind (openaiResponse cfg now model (resp_data r)) (fun v =>
               Ok (mkResponseOut 200 hs (Json v))),
               calls1)
        end
    end.

(** [module.exports]: the response to [req], and the bodies posted to the
    backend while it was made. *)
Definition handler (cfg : Config) (now : Z) (net : network) (req : request)
  : response * list value :=
  if String.eqb (method req) "OPTIONS" then
    (mkResponseOut 200 [] (Json (VObj [("ok", VBool true)])), [])
  else
    let hs := corsHeaders in
    let path := if String.eqb (url req) "" then "/" else url req in
    if JSString.includes path "/health" || String.eqb path "/api" || String.eqb path "/api/" then
      (mkResponseOut 200 hs (Json (health cfg)), [])
    else if JSString.includes path "/v1/models" then
      (mkResponseOut 200 hs (Json (models now)), [])
    else if JSString.includes path "/v1/chat/completions" && String.eqb (method req) "POST" then
      match chat cfg now net hs req with
      | (Ok r, calls) => (r, calls)
      | (Throw e, calls) =>
          let message := if String.eqb (error_message e) "" then "Internal server error"
                         else error_message e in
          (mkResponseOut (error_status e) hs (Json (error_envelope message (error_status e))),
           calls)
      end
    else
      (mkResponseOut 404 hs
         (Json (error_envelope ("Endpoint " ++ path ++ " not found") 404)), []).

(** The tests of the handler, in the order it makes them: [path_of] is
    [req.url || '/']; a request reaches the chat branch when it is not an
    OPTIONS request, its path is neither a health path nor a models path, and
    the test of line 73 holds. *)
Definition path_of (req : request) : string :=
  if String.eqb (url req) "" then "/" else url req.

Definition is_health (path : string) : bool :=
  JSString.includes path "/health" || String.eqb path "/api" || String.eqb path "/api/".

Definition is_chat (req : request) : bool :=
  JSString.includes (path_of req) "/v1/chat/completions" && String.eqb (method req) "POST".

Definition reaches_chat (req : request) : bool :=
  negb (String.eqb (method req) "OPTIONS") && negb (is_health (path_of req))
  && negb (JSString.includes (path_of req) "/v1/models") && is_chat req.

(** The body of the completion request for [req] when its model resolves to
    [backend]. *)
Definition request_for (cfg : Config) (backend : string) (req : request) : value :=
  nimRequest cfg (VStr backend) (prop (body req) "messages")
    (prop (body req) "temperature") (prop (body req) "max_tokens")
    (prop (body req) "stream").

(** The usage sent when the backend gives none. *)
Definition no_usage : value :=
  VObj [ ("prompt_tokens", VNum 0 0);
         ("completion_tokens", VNum 0 0);
         ("total_tokens", VNum 0 0) ].

(** The headers added to the CORS headers for a streamed answer. *)
Definition stream_headers : list (string * string) :=
  [ ("Content-Type", "text/event-stream");
    ("Cache-Control", "no-cache");
    ("Connection", "keep-alive") ].

End Proxy.

(** ** Events used as examples *)

Module Examples.
Import JS Stream.

(** An event whose delta has the one field [k] with the text [x]. *)
Definition delta_event (k x : string) : value :=
  VObj [("choices", VArr [VObj [("delta", VObj [(k, VStr x)])]])].

(** A frame as the backend sends it: the payload, written with apostrophes,
    after "data: " and before an empty line. *)
Definition frame (payload : string) : Buffer.t := "data: " ++ q payload ++ nl ++ nl.

Definition hi : Buffer.t := frame "{'choices':[{'delta':{'content':'Hi'}}]}".

(** The same event with the content U+00E9, whose UTF-8 form is the two
    octets 195 and 169, cut between the two. *)
Definition accent_head : Buffer.t :=
  "data: " ++ q "{'choices':[{'delta':{'content':'" ++ String "195"%char "".
Definition accent_tail : Buffer.t :=
  String "169"%char (q "'}}]}" ++ nl ++ nl).
Definition e_acute : string := String "195"%char (String "169"%char "").

Definition display_on : Config := mkConfig true false.

Definition reasoning_a : Buffer.t := frame "{'choices':[{'delta':{'reasoning_content':'a'}}]}".
Definition reasoning_b : Buffer.t := frame "{'choices':[{'delta':{'reasoning_content':'b'}}]}".
Definition content_c : Buffer.t := frame "{'choices':[{'delta':{'content':'c'}}]}".

Definition empty_reasoning_line : string :=
  "data: " ++ q "{'choices':[{'delta':{'reasoning_content':''}}]}".

Fixpoint texts (vs : list value) : string :=
  match vs with
  | [] => ""
  | v :: vs' => string_of v ++ texts vs'
  end.

End Examples.

(** ** Requests used as examples *)

Module ChatExamples.
Import JS Proxy.

Definition ask (fields : list (string * value)) : request :=
  mkRequest "POST" "/v1/chat/completions" (VObj fields).

Definition user_says_hi : value :=
  VArr [VObj [("role", VStr "user"); ("content", VStr "hi")]].

End ChatExamples.

(** * Properties *)

(** ** The platform functions on small inputs *)

Section Platform.
Import JS Examples.

Example parse_event :
  JSON.parse (q "{'choices':[{'delta':{'content':'Hi'}}]}") = Some (delta_event "content" "Hi").
Proof. reflexivity. Qed.

Example parse_values :
  JSON.parse (q " [1, -2.50, 3e2, true, null, {'a': 'x', 'a': 'y'}, '\u0041\n'] ")
  = Some (VArr [ VNum 1 0; VNum (-250) (-2); VNum 3 2; VBool true; VNull;
                 VObj [("a", VStr "y")]; VStr ("A" ++ nl) ]).
Proof. reflexivity. Qed.

Example parse_rejects :
  map JSON.parse [ ""; "[DONE]"; q "{'a':1,}"; "01"; q "{'a'"; "nul"; q "'a' b" ]
  = [None; None; None; None; None; None; None].
Proof. reflexivity. Qed.

Example split_lines :
  JSString.split LF ("a" ++ nl ++ nl ++ "b") = ["a"; ""; "b"] /\
  JSString.split LF ("a" ++ nl) = ["a"; ""] /\
  JSString.split LF "" = [""].
Proof. repeat split. Qed.

Example toString_cut_character :
  Buffer.toString e_acute = e_acute /\
  Buffer.toString (String "195"%char "") = Buffer.REPLACEMENT /\
  Buffer.toString (String "169"%char "") = Buffer.REPLACEMENT.
Proof. repeat split. Qed.

Example string_of_values :
  map string_of [ VNum 250 (-2); VNum (-3) 2; VNum 0 0; VNull;
                 VArr [VNull; VArr []; VStr "a"; VNum 1 0]; VObj [] ]
  = [ "2.5"; "-300"; "0"; "null"; ",,a,1"; "[object Object]" ].
Proof. reflexivity. Qed.

Example small_numbers :
  map truthy [ VNum 0 0; VNum 0 5; VNum 1 (-400); VNum 2 (-324); VNum 3 (-324);
               VNum 5 (-324); VNum 1 (-3); VNum (-1) 0 ]
  = [false; false; false; false; true; true; true; true].
Proof. reflexivity. Qed.

Example conversions :
  map ToString [ VStr "a"; VObj [("a", VNull)]; VArr [VNum 1 0; VArr []] ]
    = [Ok "a"; Ok "[object Object]"; Ok "1,"] /\
  map converts [ VObj [("toString", VNum 0 0)]; VArr [VObj [("toString", VNull)]];
                 VObj [("valueOf", VNum 0 0)] ]
    = [false; false; true].
Proof. split; reflexivity. Qed.

Example inherited_members :
  map (fun name => Proxy.MODEL_MAPPING_at (VStr name))
      [ "gpt-4o"; "my-model"; "toString"; "__proto__" ]
  = [ Ok (VStr "deepseek-ai/deepseek-v3.2"); Ok VUndefined; Ok (VFun "toString");
      Ok (VObj []) ] /\
  Proxy.MODEL_MAPPING_at (VObj [("toString", VNum 1 0)])
  = Throw (TypeError "Cannot convert object to primitive value").
Proof. split; reflexivity. Qed.

End Platform.

(** ** Text and lists *)

Section TextFacts.

Lemma append_empty (s : string) : s ++ "" = s.
Proof. induction s as [|c s IH]; simpl; [reflexivity | now rewrite IH]. Qed.

Lemma append_associative (a b c : string) : (a ++ b) ++ c = a ++ b ++ c.
Proof. induction a as [|x a IH]; simpl; [reflexivity | now rewrite IH]. Qed.

Lemma includes_append (p s x : string) :
  JSString.includes s x = true -> JSString.includes (p ++ s) x = true.
Proof.
  intros H. induction p as [|c p IH]; simpl; [exact H |].
  rewrite IH. apply orb_true_r.
Qed.

Lemma startsWith_append (p s : string) : JSString.startsWith (p ++ s) p = true.
Proof.
  induction p as [|c p IH]; simpl; [now destruct s |].
  now rewrite Ascii.eqb_refl, IH.
Qed.

Lemma slice_append (p s : string) : JSString.slice (String.length p) (p ++ s) = s.
Proof. induction p as [|c p IH]; simpl; [now destruct s | exact IH]. Qed.

Lemma split_not_nil (c : ascii) (s : string) : JSString.split c s <> [].
Proof.
  destruct s as [|a s]; simpl; [discriminate |].
  destruct (Ascii.eqb a c); [discriminate |].
  destruct (JSString.split c s); discriminate.
Qed.

Lemma pop_cons {A : Type} (x : A) (l : list A) :
  l <> [] -> pop (x :: l) = (fst (pop l), x :: snd (pop l)).
Proof.
  intros H. destruct l as [|y l]; [contradiction |].
  change (pop (x :: y :: l)) with (let '(o, r) := pop (y :: l) in (o, x :: r)).
  now destruct (pop (y :: l)).
Qed.

Lemma pop_app {A : Type} (l1 l2 : list A) :
  l2 <> [] -> pop (l1 ++ l2)%list = (fst (pop l2), (l1 ++ snd (pop l2))%list).
Proof.
  intros H. induction l1 as [|x l1 IH]; simpl app.
  - now destruct (pop l2).
  - rewrite pop_cons, IH; [reflexivity |].
    destruct l1; simpl; [exact H | discriminate].
Qed.

Lemma pop_some_not_nil {A : Type} (l r : list A) (x : A) :
  pop l = (Some x, r) -> l <> [].
Proof. destruct l; simpl; intros H; [discriminate H | discriminate]. Qed.

(** Splitting a text in two: the lines before the cut are the same, and the
    fragment left after them is completed by what follows. *)
Lemma split_append (c : ascii) (a b : string) :
  exists l ls,
    pop (JSString.split c a) = (Some l, ls) /\
    JSString.split c (a ++ b) = (ls ++ JSString.split c (l ++ b))%list.
Proof.
  induction a as [|x a (l & ls & Hpop & Hsplit)].
  - exists "", []. split; reflexivity.
  - simpl. destruct (Ascii.eqb x c) eqn:Exc.
    + exists l, ("" :: ls). split.
      * rewrite pop_cons, Hpop; [reflexivity | eapply pop_some_not_nil; eauto].
      * now rewrite Hsplit.
    + rewrite Hsplit.
      destruct (JSString.split c a) as [|h t] eqn:Ha; [discriminate Hpop |].
      destruct t as [|t1 t2].
      * simpl in Hpop. injection Hpop as <- <-.
        exists (String x h), []. split; [reflexivity |].
        simpl. now rewrite Exc.
      * rewrite pop_cons in Hpop by discriminate.
        destruct (pop (t1 :: t2)) as [o r] eqn:Hp.
        simpl in Hpop. injection Hpop as -> <-.
        exists l, (String x h :: r). split.
        -- rewrite pop_cons by discriminate. now rewrite Hp.
        -- reflexivity.
Qed.

End TextFacts.

(** ** Decoding a buffer that is cut in two *)

Section BufferFacts.
Import Buffer.

Lemma step_idle (d : decoder) (c : ascii) : needed d = 0%nat -> step d c = lead c.
Proof. unfold step. now intros ->. Qed.

Lemma decode_idle (d : decoder) (b : Buffer.t) :
  needed d = 0%nat -> decode d b = decode idle b.
Proof.
  intros H. destruct b as [|c b]; simpl.
  - unfold flush. now rewrite H.
  - now rewrite (step_idle d c H).
Qed.

(** When the first part ends on a character boundary the text of the whole
    is the text of the parts. *)
Lemma decode_append (a b : Buffer.t) (d : decoder) :
  needed (run d a) = 0%nat -> decode d (a ++ b) = decode d a ++ decode idle b.
Proof.
  revert d. induction a as [|c a IH]; intros d H; simpl in *.
  - unfold flush. rewrite H. now apply decode_idle.
  - destruct (step d c) as [out d'] eqn:E. simpl in H.
    rewrite (IH d' H). now rewrite append_associative.
Qed.

Lemma toString_append (a b : Buffer.t) :
  complete a = true -> toString (a ++ b) = toString a ++ toString b.
Proof.
  unfold complete, toString. intros H.
  apply decode_append. now apply Nat.eqb_eq.
Qed.

Lemma ascii_only_complete (b : Buffer.t) : ascii_only b = true -> complete b = true.
Proof.
  unfold complete. intros H.
  assert (R : run idle b = idle).
  { induction b as [|c b IH]; [reflexivity |].
    cbn [ascii_only] in H. apply andb_true_iff in H as [Hc Hb].
    cbn [run]. rewrite (step_idle idle c eq_refl).
    unfold lead. rewrite Hc. cbn [snd]. now apply IH. }
  now rewrite R.
Qed.

End BufferFacts.

(** ** The stream handler under a cut of its input *)

Section StreamFacts.
Import JS Stream.

Variable cfg : Config.

Lemma forEach_app (started : bool) (l1 l2 : list string) :
  forEach cfg started (l1 ++ l2)%list =
  let '(w1, s1) := forEach cfg started l1 in
  let '(w2, s2) := forEach cfg s1 l2 in
  ((w1 ++ w2)%list, s2).
Proof.
  revert started. induction l1 as [|x l1 IH]; intros started; simpl.
  - now destruct (forEach cfg started l2).
  - destruct (process_line cfg started x) as [w s1].
    rewrite IH.
    destruct (forEach cfg s1 l1) as [w1 s2].
    destruct (forEach cfg s2 l2) as [w2 s3].
    now rewrite app_assoc.
Qed.

(** Text that arrives in two pieces gives the writes of the whole text, in
    the same order, and leaves the same state. *)
Lemma on_text_append (st : state) (t1 t2 : string) :
  on_text cfg st (t1 ++ t2) =
  let '(w1, st1) := on_text cfg st t1 in
  let '(w2, st2) := on_text cfg st1 t2 in
  ((w1 ++ w2)%list, st2).
Proof.
  unfold on_text.
  rewrite <- append_associative.
  destruct (split_append LF (buffer st ++ t1) t2) as (l & ls & Hpop & Hsplit).
  rewrite Hpop, Hsplit.
  rewrite pop_app by apply split_not_nil.
  assert (Hl : (if String.eqb l "" then "" else l) = l).
  { destruct (String.eqb_spec l ""); congruence. }
  rewrite Hl, forEach_app.
  destruct (forEach cfg (reasoningStarted st) ls) as [w1 s1]. simpl.
  destruct (pop (JSString.split LF (l ++ t2))) as [last lines]. simpl.
  now destruct (forEach cfg s1 lines).
Qed.

(** The same for buffers, when the cut falls between two characters. *)
Lemma on_data_append (st : state) (b1 b2 : Buffer.t) :
  Buffer.complete b1 = true ->
  on_data cfg st (b1 ++ b2) =
  let '(w1, st1) := on_data cfg st b1 in
  let '(w2, st2) := on_data cfg st1 b2 in
  ((w1 ++ w2)%list, st2).
Proof.
  intros H. unfold on_data.
  rewrite (toString_append b1 b2 H). apply on_text_append.
Qed.

Lemma transduce_cut (b1 b2 : Buffer.t) :
  Buffer.complete b1 = true ->
  transduce cfg [b1; b2] = transduce cfg [b1 ++ b2].
Proof.
  intros H. unfold transduce. simpl.
  rewrite (on_data_append initial b1 b2 H).
  destruct (on_data cfg initial b1) as [w1 st1].
  destruct (on_data cfg st1 b2) as [w2 st2]. simpl.
  now rewrite !app_nil_r.
Qed.

Lemma transduce_cut_ascii (b1 b2 : Buffer.t) :
  Buffer.ascii_only b1 = true ->
  transduce cfg [b1; b2] = transduce cfg [b1 ++ b2].
Proof. intros H. apply transduce_cut. now apply ascii_only_complete. Qed.

End StreamFacts.

(** ** The stream handler on the events of the specification *)

Section StreamExamples.
Import JS Stream Examples.

Lemma ascii_only_app (b1 b2 : Buffer.t) :
  Buffer.ascii_only (b1 ++ b2) = true -> Buffer.ascii_only b1 = true.
Proof.
  induction b1 as [|c b1 IH]; simpl; [reflexivity |].
  intros H. apply andb_true_iff in H as [Hc Hb].
  now rewrite Hc, IH.
Qed.

(** The event of the specification, cut at any place, is re-framed as it is
    when it arrives whole. *)
Lemma hi_cut_anywhere (cfg : Config) (b1 b2 : Buffer.t) :
  (b1 ++ b2)%string = hi ->
  transduce cfg [b1; b2] = [Event (delta_event "content" "Hi")].
Proof.
  intros H. rewrite transduce_cut_ascii.
  - rewrite H. now destruct cfg as [[] []].
  - apply (ascii_only_app b1 b2). now rewrite H.
Qed.

(** C1, at the input on which the handler departs from it: an event whose
    content is U+00E9 gives that content when it arrives whole, and two
    U+FFFD when the chunks are cut between the two octets of the character. *)
Theorem C1_cut_inside_character :
  transduce source_config [(accent_head ++ accent_tail)%string]
    = [Event (delta_event "content" e_acute)] /\
  transduce source_config [accent_head; accent_tail]
    = [Event (delta_event "content" (Buffer.REPLACEMENT ++ Buffer.REPLACEMENT))] /\
  transduce source_config [accent_head; accent_tail]
    <> transduce source_config [(accent_head ++ accent_tail)%string].
Proof.
  repeat split; try (vm_compute; reflexivity).
  vm_compute. discriminate.
Qed.

(** C2: with the display on, the deltas reasoning "a", reasoning "b",
    content "c" are sent on with the contents "<think>\na", "b" and
    "</think>\n\nc", which read "<think>\nab</think>\n\nc" together; no
    event keeps [reasoning_content]; [reasoningStarted] goes from false to
    true on the first event, stays true on the second and is false again
    after the third. *)
Theorem C2_reasoning_then_content :
  let out := transduce display_on [reasoning_a; reasoning_b; content_c] in
  map (delta_field "content") out
    = [ VStr ("<think>" ++ nl ++ "a"); VStr "b"; VStr ("</think>" ++ nl ++ nl ++ "c") ] /\
  texts (map (delta_field "content") out)
    = "<think>" ++ nl ++ "ab</think>" ++ nl ++ nl ++ "c" /\
  forallb (fun w => negb (has_reasoning w)) out = true /\
  reasoningStarted initial = false /\
  reasoningStarted (snd (feed display_on initial [reasoning_a])) = true /\
  reasoningStarted (snd (feed display_on initial [reasoning_a; reasoning_b])) = true /\
  reasoningStarted (snd (feed display_on initial [reasoning_a; reasoning_b; content_c])) = false.
Proof. repeat split; vm_compute; reflexivity. Qed.

(** C10: a line that starts with "data: " and has "[DONE]" anywhere after
    it is written as it is, followed by one line feed, whatever its payload
    and whatever the toggles: it is not parsed, [reasoningStarted] keeps its
    value, and a [reasoning_content] in it stays. *)
Theorem C10_done_anywhere (cfg : Config) (started : bool) (rest : string) :
  JSString.includes rest "[DONE]" = true ->
  process_line cfg started ("data: " ++ rest) = ([Raw ("data: " ++ rest ++ nl)], started).
Proof.
  intros H. unfold process_line.
  rewrite (startsWith_append "data: " rest).
  rewrite (includes_append "data: " rest "[DONE]" H).
  now rewrite append_associative.
Qed.

Lemma C10_done_anywhere_witness :
  JSString.includes (q "{'choices':[{'delta':{'content':'say [DONE]','reasoning_content':'x'}}]}")
    "[DONE]" = true /\
  process_line display_on true
    ("data: " ++ q "{'choices':[{'delta':{'content':'say [DONE]','reasoning_content':'x'}}]}")
  = ([Raw ("data: " ++ q "{'choices':[{'delta':{'content':'say [DONE]','reasoning_content':'x'}}]}" ++ nl)],
     true).
Proof.
  split; [reflexivity |].
  apply (C10_done_anywhere display_on true
           (q "{'choices':[{'delta':{'content':'say [DONE]','reasoning_content':'x'}}]}")).
  reflexivity.
Defined.

End StreamExamples.

(** ** Reading and changing the delta of an event *)

Section DeltaFacts.
Import JS Stream.

Lemma lookup_modify_field (k : string) (f : value -> value) (l : list (string * value)) :
  lookup k (modify_field k f l) = option_map f (lookup k l).
Proof.
  induction l as [|[k' v] l IH]; simpl; [reflexivity |].
  destruct (String.eqb k' k) eqn:E; simpl; rewrite E; [reflexivity | exact IH].
Qed.

Lemma lookup_set_field (k k' : string) (v : value) (l : list (string * value)) :
  lookup k' (set_field k v l) = if String.eqb k k' then Some v else lookup k' l.
Proof.
  induction l as [|[k0 v0] l IH]; simpl.
  - reflexivity.
  - destruct (String.eqb k0 k) eqn:E; simpl.
    + apply String.eqb_eq in E. subst k0.
      now destruct (String.eqb k k').
    + rewrite IH. destruct (String.eqb k0 k') eqn:E'; [| reflexivity].
      apply String.eqb_eq in E'. subst k0.
      rewrite String.eqb_sym in E. now rewrite E.
Qed.

Lemma lookup_delete_field (k k' : string) (l : list (string * value)) :
  lookup k' (delete_field k l) = if String.eqb k k' then None else lookup k' l.
Proof.
  induction l as [|[k0 v0] l IH]; simpl.
  - now destruct (String.eqb k k').
  - destruct (String.eqb k0 k) eqn:E; simpl.
    + rewrite IH. apply String.eqb_eq in E. subst k0.
      now destruct (String.eqb k k').
    + rewrite IH. destruct (String.eqb k0 k') eqn:E'; [| reflexivity].
      apply String.eqb_eq in E'. subst k0.
      rewrite String.eqb_sym in E. now rewrite E.
Qed.

(** The shape of an event whose delta is an object. *)
Lemma delta_of_object (data : value) (props : list (string * value)) :
  delta_of data = Ok (VObj props) ->
  exists l choices l0,
    data = VObj l /\ lookup "choices" l = Some choices /\
    ((exists cs, choices = VArr (VObj l0 :: cs)) \/
     (exists lc, choices = VObj lc /\ lookup "0" lc = Some (VObj l0))) /\
    lookup "delta" l0 = Some (VObj props).
Proof.
  unfold delta_of, get, bind.
  destruct data as [| | | | |es|l|f]; simpl; try discriminate.
  destruct (lookup "choices" l) as [choices|] eqn:Hc; [| discriminate].
  intros H. injection H as H.
  assert (Hobj : forall c0, opt_get c0 "delta" = VObj props ->
                 exists l0, c0 = VObj l0 /\ lookup "delta" l0 = Some (VObj props)).
  { intros c0 H0. unfold opt_get in H0.
    destruct c0 as [| | | |s|es|l0|f]; simpl in H0; try discriminate.
    exists l0. split; [reflexivity |].
    destruct (lookup "delta" l0); [now subst | discriminate]. }
  unfold opt_get at 2 in H.
  destruct choices as [| | | |s|cs|lc|f]; simpl in H; try discriminate.
  - destruct (String.eqb s ""); simpl in H; discriminate.
  - destruct cs as [|c0 cs]; simpl in H; [discriminate |].
    destruct (Hobj c0 H) as (l0 & -> & Hd).
    exists l, (VArr (VObj l0 :: cs)), l0. repeat split; eauto.
  - destruct (lookup "0" lc) as [c0|] eqn:H0; [| discriminate].
    destruct (Hobj c0 H) as (l0 & -> & Hd).
    exists l, (VObj lc), l0. repeat split; eauto.
Qed.

(** A change of the delta is what is read back from the event. *)
Lemma delta_after (f : value -> value) (data : value) (props : list (string * value)) :
  delta_of data = Ok (VObj props) ->
  opt_get (opt_get (opt_get (with_delta f data) "choices") "0") "delta" = f (VObj props).
Proof.
  intros H.
  destruct (delta_of_object data props H) as (l & choices & l0 & -> & Hc & Hch & Hd).
  unfold with_delta, opt_get at 3. cbn [modify nullish prop].
  rewrite lookup_modify_field, Hc. cbn [option_map].
  destruct Hch as [(cs & ->) | (lc & -> & H0)]; unfold opt_get at 2;
    cbn [modify nullish prop String.eqb Ascii.eqb Bool.eqb hd].
  - unfold opt_get. cbn [nullish prop]. now rewrite lookup_modify_field, Hd.
  - rewrite lookup_modify_field, H0. cbn [option_map modify].
    unfold opt_get. cbn [nullish prop]. now rewrite lookup_modify_field, Hd.
Qed.



Lemma nonempty_append_l (a b : string) :
  negb (String.eqb a "") = true -> negb (String.eqb (a ++ b) "") = true.
Proof. now destruct a. Qed.


(** The three steps of a message: the first reasoning text opens the
    marker, a later one is shown bare, and the content that follows closes
    the marker. *)
Lemma splice_steps (r c : string) :
  r <> "" -> c <> "" ->
  splice false (VStr r) VUndefined = (Ok (VStr ("<think>" ++ nl ++ r)), true) /\
  splice true (VStr r) VUndefined = (Ok (VStr r), true) /\
  splice true VUndefined (VStr c) = (Ok (VStr ("</think>" ++ nl ++ nl ++ c)), false) /\
  splice false VUndefined (VStr c) = (Ok (VStr c), false).
Proof.
  intros Hr Hc. unfold splice. cbn [truthy].
  destruct (String.eqb_spec r ""); [contradiction |].
  destruct (String.eqb_spec c ""); [contradiction |].
  repeat split.
Qed.



End DeltaFacts.

(** ** What the handler does to the delta of a parsed event *)

Section DeltaTheorems.
Import JS Stream Examples.







(** C4, at the input on which the handler departs from it: with the display
    on, a delta whose [reasoning_content] is the empty text and that has no
    content is re-serialized with the field still in it (the [delete] of
    line 171 is reached only when there is text to show), while the display
    off branch removes the field of the same event. *)
Theorem C4_empty_reasoning_kept :
  exists data data' data'',
    JSON.parse (JSString.slice 6 empty_reasoning_line) = Some data /\
    has_reasoning (Event data) = true /\
    process_line display_on false empty_reasoning_line = ([Event data'], false) /\
    has_reasoning (Event data') = true /\
    process_line source_config false empty_reasoning_line = ([Event data''], false) /\
    has_reasoning (Event data'') = false.
Proof. do 3 eexists. repeat split; vm_compute; reflexivity. Qed.

End DeltaTheorems.

(** ** Model selection *)

Section ResolverTheorems.
Import JS Proxy.

Variable net : network.

Lemma mapped_not_empty (name backend : string) :
  mapped name MODEL_MAPPING = Some backend -> negb (String.eqb backend "") = true.
Proof.
  unfold MODEL_MAPPING. cbn [mapped].
  repeat (destruct (String.eqb _ name); [intros H; injection H as <-; reflexivity |]).
  discriminate.
Qed.

(** What the probe leaves in [nimModel] when it does not confirm. *)
Lemma probe_rejected (model : value) :
  probe_confirms net model = false ->
  match axios_post net (fun status => (status <? 500)%Z) (probe_payload model) with
  | Ok response =>
      if (200 <=? resp_status response)%Z && (resp_status response <? 300)%Z
      then model else VUndefined
  | Throw _ => VUndefined
  end = VUndefined.
Proof.
  unfold probe_confirms, axios_post.
  destruct (net (probe_payload model)) as [status data chunks | msg]; [| reflexivity].
  intros H. destruct (status <? 500)%Z; [| reflexivity].
  cbn [resp_status]. now rewrite H.
Qed.

(** [MODEL_MAPPING[name]] for a text: a key of the mapping gives its value,
    and a name that neither the mapping nor [Object.prototype] has gives
    [undefined]. *)
Lemma mapping_at_key (name backend : string) :
  mapped name MODEL_MAPPING = Some backend ->
  MODEL_MAPPING_at (VStr name) = Ok (VStr backend).
Proof.
  intros H. unfold MODEL_MAPPING_at. cbn [ToString converts string_of bind].
  now rewrite H.
Qed.

Lemma mapping_at_unknown (name : string) :
  mapped name MODEL_MAPPING = None ->
  lookup name Object_prototype = None ->
  MODEL_MAPPING_at (VStr name) = Ok VUndefined.
Proof.
  intros H1 H2. unfold MODEL_MAPPING_at. cbn [ToString converts string_of bind].
  now rewrite H1, H2.
Qed.

(** A name that is neither a key of the mapping nor a name inherited from
    [Object.prototype], and that the probe does not confirm, gets the large
    default when its lower-case form contains "gpt-4", "claude-opus" or
    "405b"; if not, the medium default when it contains "claude", "gemini" or
    "70b"; if not, the small default.  The result is a value, not an
    exception, and the probe is the one call made. *)
Theorem tier_fallback (name : string) :
  mapped name MODEL_MAPPING = None ->
  lookup name Object_prototype = None ->
  probe_confirms net (VStr name) = false ->
  let lower := JSString.toLowerCase name in
  resolve net (VStr name) =
  (Ok (VStr (if JSString.includes lower "gpt-4" || JSString.includes lower "claude-opus"
                || JSString.includes lower "405b"
             then "meta/llama-3.1-405b-instruct"
             else if JSString.includes lower "claude" || JSString.includes lower "gemini"
                     || JSString.includes lower "70b"
             then "meta/llama-3.1-70b-instruct"
             else "meta/llama-3.1-8b-instruct")),
   [probe_payload (VStr name)]).
Proof.
  intros Hmap Hproto Hprobe lower.
  unfold resolve. rewrite (mapping_at_unknown name Hmap Hproto). cbn [truthy].
  rewrite (probe_rejected (VStr name) Hprobe). cbn [truthy toLowerCase bind].
  reflexivity.
Qed.

(** C5, at the input on which the handler departs from it: "constructor" is
    not a key of the mapping and contains none of the six words, so the claim
    gives it the small default after a probe that fails; but
    [MODEL_MAPPING[model]] of line 77 finds the member the object literal
    inherits under that name, which is truthy: whatever the backend would
    answer, nothing is posted, no tier is looked at, and the model of the
    request is the native function [Object]. *)
Theorem C5_inherited_name_skips_fallback :
  mapped "constructor" MODEL_MAPPING = None /\
  tier (JSString.toLowerCase "constructor") = "meta/llama-3.1-8b-instruct" /\
  resolve net (VStr "constructor") = (Ok (VFun "Object"), []) /\
  resolve net (VStr "constructor") <> (Ok (VStr "meta/llama-3.1-8b-instruct"),
                                       [probe_payload (VStr "constructor")]).
Proof. repeat split. discriminate. Qed.

(** C6: a name that is a key of the mapping gets the value the mapping has
    for it, and nothing is posted to the backend to find it; the one body the
    chat branch posts is then the request for the completion itself. *)
Theorem C6_mapped_no_probe (name backend : string)
  (cfg : Config) (now : Z) (hs : list (string * string)) (req : request) :
  mapped name MODEL_MAPPING = Some backend ->
  nullish (body req) = false ->
  prop (body req) "model" = VStr name ->
  resolve net (VStr name) = (Ok (VStr backend), []) /\
  snd (chat cfg now net hs req) =
  [nimRequest cfg (VStr backend) (prop (body req) "messages")
     (prop (body req) "temperature") (prop (body req) "max_tokens")
     (prop (body req) "stream")].
Proof.
  intros Hmap Hbody Hmodel.
  assert (R : resolve net (VStr name) = (Ok (VStr backend), [])).
  { unfold resolve. rewrite (mapping_at_key name backend Hmap). cbn [truthy].
    now rewrite (mapped_not_empty name backend Hmap). }
  split; [exact R |].
  unfold chat. rewrite Hbody, Hmodel, R. cbn [app].
  destruct (axios_post net default_validateStatus _) as [r | e]; [| reflexivity].
  now destruct (truthy (prop (body req) "stream")).
Qed.

End ResolverTheorems.

Lemma tier_fallback_witness :
  Proxy.resolve (fun _ => Proxy.Reply 404 JS.VNull []) (JS.VStr "Llama-3.1-405B")
  = (JS.Ok (JS.VStr "meta/llama-3.1-405b-instruct"),
     [Proxy.probe_payload (JS.VStr "Llama-3.1-405B")]).
Proof.
  apply (tier_fallback (fun _ => Proxy.Reply 404 JS.VNull []) "Llama-3.1-405B");
    reflexivity.
Defined.

Lemma C6_mapped_no_probe_witness :
  let net : Proxy.network := fun _ => Proxy.NetworkError "down" in
  let req := Proxy.mkRequest "POST" "/v1/chat/completions"
               (JS.VObj [("model", JS.VStr "gpt-4o"); ("messages", JS.VArr [])]) in
  Proxy.resolve net (JS.VStr "gpt-4o")
    = (JS.Ok (JS.VStr "deepseek-ai/deepseek-v3.2"), []) /\
  snd (Proxy.chat source_config 0 net Proxy.corsHeaders req)
    = [Proxy.nimRequest source_config (JS.VStr "deepseek-ai/deepseek-v3.2")
         (JS.VArr []) JS.VUndefined JS.VUndefined JS.VUndefined].
Proof.
  intros net req.
  apply (C6_mapped_no_probe net "gpt-4o" "deepseek-ai/deepseek-v3.2"
           source_config 0%Z Proxy.corsHeaders req); reflexivity.
Defined.

(** ** The request sent to the backend *)

Section RequestTheorems.
Import JS Proxy.

(** A temperature and a [max_tokens] that are truthy are sent as they are;
    when they are absent the defaults 0.6 and 9024 are sent. *)
Lemma nimRequest_given (cfg : Config) (nimModel messages temperature max_tokens stream : value) :
  let r := nimRequest cfg nimModel messages temperature max_tokens stream in
  (truthy temperature = true -> prop r "temperature" = temperature) /\
  (truthy max_tokens = true -> prop r "max_tokens" = max_tokens) /\
  (temperature = VUndefined -> prop r "temperature" = VNum 6 (-1)) /\
  (max_tokens = VUndefined -> prop r "max_tokens" = VNum 9024 0).
Proof.
  cbn. unfold or. repeat split; intros H; rewrite H; reflexivity.
Qed.

(** C9, at the input on which the handler departs from it: a temperature of
    0 and a [max_tokens] of 0 are not sent on; the request to the backend has
    the defaults 0.6 and 9024 in their place, and so has the body the handler
    posts for such a request to a mapped model. *)
Theorem C9_zero_replaced_by_default :
  (forall (cfg : Config) (nimModel messages stream : value),
     let r := nimRequest cfg nimModel messages (VNum 0 0) (VNum 0 0) stream in
     prop r "temperature" = VNum 6 (-1) /\ prop r "max_tokens" = VNum 9024 0) /\
  (forall (now : Z) (net : network),
     map (fun sent_body => (prop sent_body "temperature", prop sent_body "max_tokens"))
       (snd (handler source_config now net
               (mkRequest "POST" "/v1/chat/completions"
                  (VObj [ ("model", VStr "gpt-4");
                          ("messages", VArr [VObj [("role", VStr "user"); ("content", VStr "hi")]]);
                          ("temperature", VNum 0 0);
                          ("max_tokens", VNum 0 0) ]))))
     = [(VNum 6 (-1), VNum 9024 0)]).
Proof.
  split.
  - intros. split; reflexivity.
  - intros now net. unfold handler, chat. cbn.
    unfold axios_post.
    destruct (net _) as [status data chunks | msg]; [| reflexivity].
    destruct (default_validateStatus status); [| reflexivity].
    cbn. now destruct (openaiResponse _ _ _ _).
Qed.

End RequestTheorems.

(** ** Routing and headers *)

Section RouterTheorems.
Import JS Proxy.

Variables (cfg : Config) (now : Z) (net : network).

(** Every response to a request that is not an OPTIONS request has the
    three headers of [corsHeaders]. *)
Lemma cors_unless_options (req : request) :
  method req <> "OPTIONS" ->
  incl corsHeaders (headers (fst (handler cfg now net req))).
Proof.
  intros H. unfold handler.
  destruct (String.eqb_spec (method req) "OPTIONS") as [E | _]; [contradiction |].
  repeat match goal with
         | |- context [if ?b then _ else _] => destruct b
         end; try apply incl_refl.
  unfold chat.
  destruct (nullish (body req)); [apply incl_refl |].
  destruct (resolve net _) as [[nimModel | e] calls]; [| apply incl_refl].
  destruct (axios_post net default_validateStatus _) as [r | e]; [| apply incl_refl].
  destruct (truthy _).
  - cbn [fst headers]. apply incl_appl, incl_refl.
  - destruct (openaiResponse _ _ _ _); apply incl_refl.
Qed.

(** C8, at the input on which the handler departs from it: the response to
    an OPTIONS request, whatever its path and body, is sent before any header
    is set; it has status 200, the body [{ok: true}] and none of the three
    headers. *)
Theorem C8_options_without_cors (path : string) (b : value) :
  let r := fst (handler cfg now net (mkRequest "OPTIONS" path b)) in
  r = mkResponseOut 200 [] (Json (VObj [("ok", VBool true)])) /\
  header "Access-Control-Allow-Origin" r = None /\
  header "Access-Control-Allow-Methods" r = None /\
  header "Access-Control-Allow-Headers" r = None.
Proof. repeat split. Qed.

(** C7, as the handler has it: a request that is not an OPTIONS request and
    whose path contains "/health", or is "/api" or "/api/", is answered with
    status 200 and the body [{status: "ok", service, reasoning_display,
    thinking_mode}] that shows the two toggles; nothing is posted to the
    backend. *)
Theorem C7_health_paths (req : request) :
  method req <> "OPTIONS" ->
  JSString.includes (url req) "/health" = true \/ url req = "/api" \/ url req = "/api/" ->
  handler cfg now net req =
  (mkResponseOut 200 corsHeaders
     (Json (VObj [ ("status", VStr "ok");
                   ("service", VStr "OpenAI to NVIDIA NIM Proxy (Vercel)");
                   ("reasoning_display", VBool (SHOW_REASONING cfg));
                   ("thinking_mode", VBool (ENABLE_THINKING_MODE cfg)) ])),
   []).
Proof.
  intros Hm Hp. unfold handler.
  destruct (String.eqb_spec (method req) "OPTIONS") as [E | _]; [contradiction |].
  assert (Hurl : String.eqb (url req) "" = false).
  { destruct (url req); [| reflexivity].
    destruct Hp as [H | [H | H]]; discriminate H. }
  rewrite Hurl.
  assert (Hroute : JSString.includes (url req) "/health" || String.eqb (url req) "/api"
                   || String.eqb (url req) "/api/" = true).
  { destruct Hp as [H | [H | H]]; rewrite H; cbn;
      rewrite ?orb_true_r; reflexivity. }
  now rewrite Hroute.
Qed.

End RouterTheorems.

Lemma C7_health_paths_witness :
  Proxy.handler source_config 0 (fun _ => Proxy.NetworkError "down")
    (Proxy.mkRequest "GET" "/health" JS.VUndefined)
  = (Proxy.mkResponseOut 200 Proxy.corsHeaders
       (Proxy.Json (JS.VObj [ ("status", JS.VStr "ok");
                              ("service", JS.VStr "OpenAI to NVIDIA NIM Proxy (Vercel)");
                              ("reasoning_display", JS.VBool false);
                              ("thinking_mode", JS.VBool false) ])),
     []).
Proof.
  apply (C7_health_paths source_config 0%Z (fun _ => Proxy.NetworkError "down")
           (Proxy.mkRequest "GET" "/health" JS.VUndefined)).
  - discriminate.
  - left. reflexivity.
Defined.

(** C7 as it is stated fails on the path "/": a GET request for it is
    answered with status 404 and the envelope of an unknown endpoint. *)
Lemma C7_root_is_not_found :
  Proxy.handler source_config 0 (fun _ => Proxy.NetworkError "down")
    (Proxy.mkRequest "GET" "/" JS.VUndefined)
  = (Proxy.mkResponseOut 404 Proxy.corsHeaders
       (Proxy.Json (Proxy.error_envelope "Endpoint / not found" 404)), []) /\
  Proxy.status (fst (Proxy.handler source_config 0 (fun _ => Proxy.NetworkError "down")
                       (Proxy.mkRequest "GET" "/" JS.VUndefined)))
  <> 200%Z.
Proof. split; [reflexivity | discriminate]. Qed.

(** * Further properties of the stream handler *)

Section StreamInvariants.
Import JS Stream Examples.

Variable cfg : Config.

(** Text that arrives in two pieces: the writes are those of the first piece
    followed by those of the second, which together are the writes of the
    whole text, and the state left behind is the same. *)
Theorem text_in_two_pieces (st : state) (t1 t2 : string) :
  fst (on_text cfg st (t1 ++ t2))
    = (fst (on_text cfg st t1) ++ fst (on_text cfg (snd (on_text cfg st t1)) t2))%list /\
  snd (on_text cfg st (t1 ++ t2)) = snd (on_text cfg (snd (on_text cfg st t1)) t2).
Proof.
  rewrite on_text_append.
  destruct (on_text cfg st t1) as [w1 st1]. cbn [fst snd].
  now destruct (on_text cfg st1 t2).
Qed.

Lemma feed_cons (st : state) (b : Buffer.t) (bs : list Buffer.t) :
  feed cfg st (b :: bs) =
  let '(w, st1) := on_data cfg st b in
  let '(ws, st2) := feed cfg st1 bs in
  ((w ++ ws)%list, st2).
Proof. reflexivity. Qed.

Lemma feed_single (st : state) (b : Buffer.t) : feed cfg st [b] = on_data cfg st b.
Proof.
  rewrite feed_cons. cbn [feed].
  destruct (on_data cfg st b) as [w st1]. now rewrite app_nil_r.
Qed.

(** Any number of chunks, each of which ends between two characters, give
    the writes and the state of their concatenation fed as one chunk. *)
Theorem chunks_as_one (st : state) (first : Buffer.t) (rest : list Buffer.t) :
  forallb Buffer.complete (first :: rest) = true ->
  feed cfg st (first :: rest) = feed cfg st [String.concat "" (first :: rest)].
Proof.
  revert st first. induction rest as [|c rest IH]; intros st first H.
  - reflexivity.
  - cbn [forallb] in H. apply andb_true_iff in H as [Hfirst Hrest].
    change (String.concat "" (first :: c :: rest))
      with (first ++ String.concat "" (c :: rest)).
    rewrite feed_single, (on_data_append cfg st _ _ Hfirst), feed_cons.
    destruct (on_data cfg st first) as [w1 st1].
    now rewrite (IH st1 c Hrest), feed_single.
Qed.

End StreamInvariants.

Lemma chunks_as_one_witness :
  Stream.feed source_config Stream.initial
    [Examples.accent_head ++ Examples.accent_tail; Examples.hi; Examples.hi]
  = Stream.feed source_config Stream.initial
      [String.concat "" [Examples.accent_head ++ Examples.accent_tail; Examples.hi; Examples.hi]].
Proof.
  apply (chunks_as_one source_config Stream.initial
           (Examples.accent_head ++ Examples.accent_tail) [Examples.hi; Examples.hi]).
  reflexivity.
Defined.

Section StreamFraming.
Import JS Stream.

Variable cfg : Config.

Lemma process_line_count (started : bool) (line : string) :
  length (fst (process_line cfg started line)) = if is_data line then 1%nat else 0%nat.
Proof.
  unfold process_line, is_data.
  destruct (JSString.startsWith line "data: "); [| reflexivity].
  destruct (JSString.includes line "[DONE]"); [reflexivity |].
  destruct (JSON.parse _) as [data |]; [| reflexivity].
  now destruct (transform cfg started data) as [[data' | e] started'].
Qed.

Lemma forEach_count (started : bool) (lines : list string) :
  length (fst (forEach cfg started lines)) = length (filter is_data lines).
Proof.
  revert started. induction lines as [|line lines IH]; intros started; [reflexivity |].
  cbn [forEach filter].
  pose proof (process_line_count started line) as Hline.
  destruct (process_line cfg started line) as [w s1]. cbn [fst] in Hline.
  specialize (IH s1). destruct (forEach cfg s1 lines) as [ws s2]. cbn [fst] in *.
  rewrite length_app, Hline, IH. now destruct (is_data line).
Qed.

(** Every complete line that starts with "data: " is answered by one write
    and every other complete line by none: nothing is dropped and nothing is
    written twice, whatever the payloads are. *)
Theorem one_write_per_data_line (st : state) (text : string) :
  length (fst (on_text cfg st text))
  = length (filter is_data (snd (pop (JSString.split LF (buffer st ++ text))))).
Proof.
  unfold on_text.
  destruct (pop (JSString.split LF (buffer st ++ text))) as [last lines]. cbn [snd].
  pose proof (forEach_count (reasoningStarted st) lines) as H.
  now destruct (forEach cfg (reasoningStarted st) lines).
Qed.

Lemma split_last_no_sep (c : ascii) (s l : string) (ls : list string) :
  pop (JSString.split c s) = (Some l, ls) ->
  JSString.includes l (String c "") = false.
Proof.
  revert l ls. induction s as [|a s IH]; intros l ls H.
  - cbn in H. injection H as <- <-. reflexivity.
  - cbn [JSString.split] in H. destruct (Ascii.eqb a c) eqn:E.
    + rewrite pop_cons in H by apply split_not_nil.
      destruct (pop (JSString.split c s)) as [o r] eqn:Hp. cbn in H.
      injection H as -> _. eapply IH. reflexivity.
    + destruct (JSString.split c s) as [|h t] eqn:Hs; [now apply split_not_nil in Hs |].
      destruct t as [|t1 t2].
      * cbn in H. injection H as <- <-.
        specialize (IH h [] eq_refl).
        cbn [JSString.includes JSString.startsWith].
        rewrite Ascii.eqb_sym, E. exact IH.
      * rewrite pop_cons in H by discriminate.
        rewrite pop_cons in IH by discriminate.
        destruct (pop (t1 :: t2)) as [o r]. cbn in H, IH.
        injection H as -> _. eapply IH. reflexivity.
Qed.

Lemma pop_split_some (c : ascii) (s : string) :
  exists l ls, pop (JSString.split c s) = (Some l, ls).
Proof.
  destruct (split_append c s "") as (l & ls & H & _). eauto.
Qed.

(** The text carried over to the next chunk never holds a line feed: it is
    always the unfinished last line. *)
Theorem carry_over_has_no_line_feed (st : state) (text : string) :
  JSString.includes (buffer (snd (on_text cfg st text))) nl = false.
Proof.
  unfold on_text.
  destruct (pop_split_some LF (buffer st ++ text)) as (l & ls & H). rewrite H.
  destruct (forEach cfg (reasoningStarted st) ls) as [ws started]. cbn [snd buffer].
  destruct (String.eqb l ""); [reflexivity |].
  exact (split_last_no_sep LF _ l ls H).
Qed.

Lemma split_no_sep (c : ascii) (s : string) :
  JSString.includes s (String c "") = false -> JSString.split c s = [s].
Proof.
  induction s as [|a s IH]; intros H; [reflexivity |].
  cbn [JSString.includes JSString.startsWith] in H.
  apply orb_false_iff in H as [Ha Hs].
  assert (He : JSString.startsWith s "" = true) by now destruct s.
  rewrite He, andb_true_r in Ha.
  cbn [JSString.split]. rewrite Ascii.eqb_sym, Ha.
  now rewrite (IH Hs).
Qed.

(** A chunk without a line feed, arriving when nothing is carried over,
    writes nothing and is kept whole; as the end of the stream writes nothing
    either, a last line that is not ended by a line feed is never sent. *)
Theorem unfinished_line_is_not_sent (started : bool) (chunk : Buffer.t) :
  JSString.includes (Buffer.toString chunk) nl = false ->
  feed cfg (mkState "" started) [chunk] = ([], mkState (Buffer.toString chunk) started).
Proof.
  intros H. rewrite feed_single. unfold on_data, on_text. cbn [buffer append].
  rewrite (split_no_sep LF _ H). cbn [pop forEach reasoningStarted].
  now destruct (String.eqb_spec (Buffer.toString chunk) "") as [-> |].
Qed.

Lemma process_line_started_off (started : bool) (line : string) :
  SHOW_REASONING cfg = false -> snd (process_line cfg started line) = started.
Proof.
  intros Hoff. unfold process_line, transform.
  destruct (JSString.startsWith line "data: "); [| reflexivity].
  destruct (JSString.includes line "[DONE]"); [reflexivity |].
  destruct (JSON.parse _) as [data |]; [| reflexivity].
  destruct (delta_of data) as [delta | e]; [| reflexivity].
  rewrite Hoff. now destruct (truthy delta).
Qed.

Lemma forEach_started_off (started : bool) (lines : list string) :
  SHOW_REASONING cfg = false -> snd (forEach cfg started lines) = started.
Proof.
  intros Hoff. revert started.
  induction lines as [|line lines IH]; intros started; [reflexivity |].
  cbn [forEach].
  pose proof (process_line_started_off started line Hoff) as Hline.
  destruct (process_line cfg started line) as [w s1]. cbn [snd] in Hline. subst s1.
  specialize (IH started). now destruct (forEach cfg started lines).
Qed.

(** With the display off [reasoningStarted] never changes, whatever
    arrives. *)
Theorem display_off_keeps_flag (st : state) (chunks : list Buffer.t) :
  SHOW_REASONING cfg = false ->
  reasoningStarted (snd (feed cfg st chunks)) = reasoningStarted st.
Proof.
  intros Hoff. revert st.
  induction chunks as [|chunk chunks IH]; intros st; [reflexivity |].
  rewrite feed_cons.
  assert (H1 : reasoningStarted (snd (on_data cfg st chunk)) = reasoningStarted st).
  { unfold on_data, on_text.
    destruct (pop _) as [last lines].
    pose proof (forEach_started_off (reasoningStarted st) lines Hoff) as H.
    now destruct (forEach cfg (reasoningStarted st) lines). }
  destruct (on_data cfg st chunk) as [w st1]. cbn [snd] in H1.
  specialize (IH st1). destruct (feed cfg st1 chunks) as [ws st2].
  cbn [snd] in *. congruence.
Qed.

(** A data line is never lost to a payload that cannot be handled: when the
    payload is not JSON, or is the JSON [null] (on which reading [choices]
    throws), the line is written as it came, followed by one line feed, and
    [reasoningStarted] keeps its value. *)
Theorem unreadable_payload_is_forwarded (started : bool) (line : string) :
  JSString.startsWith line "data: " = true ->
  JSON.parse (JSString.slice 6 line) = None \/
  JSON.parse (JSString.slice 6 line) = Some VNull ->
  process_line cfg started line = ([Raw (line ++ nl)], started).
Proof.
  intros Hdata Hparse. unfold process_line. rewrite Hdata.
  destruct (JSString.includes line "[DONE]"); [reflexivity |].
  now destruct Hparse as [-> | ->].
Qed.

End StreamFraming.

Lemma unfinished_line_is_not_sent_witness :
  Stream.feed source_config (Stream.mkState "" false) ["data: {"]
  = ([], Stream.mkState "data: {" false).
Proof.
  apply (unfinished_line_is_not_sent source_config false "data: {"). reflexivity.
Defined.

Lemma display_off_keeps_flag_witness :
  Stream.reasoningStarted
    (snd (Stream.feed source_config (Stream.mkState "" true)
            [Examples.reasoning_a; Examples.content_c]))
  = true.
Proof.
  apply (display_off_keeps_flag source_config (Stream.mkState "" true)
           [Examples.reasoning_a; Examples.content_c]).
  reflexivity.
Defined.

Lemma unreadable_payload_is_forwarded_witness :
  Stream.process_line Examples.display_on true "data: {oops"
  = ([Stream.Raw ("data: {oops" ++ nl)], true).
Proof.
  apply (unreadable_payload_is_forwarded Examples.display_on true "data: {oops").
  - reflexivity.
  - left. reflexivity.
Defined.

(** * Further properties of the splice and of the transformed event *)

Section SpliceTheorems.
Import JS Stream.

(** [reasoningStarted] after an event.  When the splice gives a text, any
    truthy content has closed the marker, and without content the marker is
    open if it was open before or if the event has reasoning to show.  When a
    [+] throws on a value that cannot be converted, the flag is what the
    first block left: open if it was open before or if the reasoning was
    shown. *)
Theorem splice_flag (started : bool) (reasoning content : value) :
  match splice started reasoning content with
  | (Ok _, started') =>
      started' = if truthy content then false else started || truthy reasoning
  | (Throw _, started') =>
      started' = started || (truthy reasoning && converts reasoning)
  end.
Proof.
  unfold splice, concat, ToString. cbn [converts bind].
  destruct (truthy reasoning), started, (truthy content),
    (converts reasoning) eqn:Hr, (converts content) eqn:Hc;
    cbn [andb orb negb bind converts]; rewrite ?Hr, ?Hc; reflexivity.
Qed.

(** Reasoning and content in one event: the closing marker goes between
    them, after the opening marker when the reasoning is the first of the
    message, and the marker is closed afterwards. *)
Theorem splice_both (r c : string) :
  r <> "" -> c <> "" ->
  splice false (VStr r) (VStr c)
    = (Ok (VStr (("<think>" ++ nl ++ r) ++ "</think>" ++ nl ++ nl ++ c)), false) /\
  splice true (VStr r) (VStr c)
    = (Ok (VStr (r ++ "</think>" ++ nl ++ nl ++ c)), false).
Proof.
  intros Hr Hc. unfold splice. cbn [truthy].
  destruct (String.eqb_spec r ""); [contradiction |].
  destruct (String.eqb_spec c ""); [contradiction |].
  split; reflexivity.
Qed.

Lemma splice_both_witness :
  splice false (VStr "why") (VStr "so")
    = (Ok (VStr (("<think>" ++ nl ++ "why") ++ "</think>" ++ nl ++ nl ++ "so")), false) /\
  splice true (VStr "why") (VStr "so")
    = (Ok (VStr ("why" ++ "</think>" ++ nl ++ nl ++ "so")), false).
Proof. apply (splice_both "why" "so"); discriminate. Defined.

Lemma delta_read (data : value) (props : list (string * value)) :
  delta_of data = Ok (VObj props) ->
  opt_get (opt_get (opt_get data "choices") "0") "delta" = VObj props.
Proof.
  unfold delta_of, get, bind.
  destruct (nullish data) eqn:Hn; [discriminate |].
  intros H. injection H as H.
  unfold opt_get at 3. now rewrite Hn.
Qed.

(** The handler changes [content] and [reasoning_content] and nothing else
    of a delta: whenever an event is written for a parsed event whose delta is
    an object, every other field of the delta is in it with the value it came
    with, under both toggles.  (When no event is written the line went out as
    it came.) *)
Theorem other_delta_fields_kept (cfg : Config) (started started' : bool) (line : string)
  (data data' : value) (props : list (string * value)) (k : string) :
  JSString.startsWith line "data: " = true ->
  JSString.includes line "[DONE]" = false ->
  JSON.parse (JSString.slice 6 line) = Some data ->
  delta_of data = Ok (VObj props) ->
  k <> "content" -> k <> "reasoning_content" ->
  process_line cfg started line = ([Event data'], started') ->
  delta_field k (Event data') = prop (VObj props) k.
Proof.
  intros Hdata Hdone Hparse Hdelta Hk1 Hk2.
  assert (Hf : forall x, prop (delete "reasoning_content" (assign "content" x (VObj props))) k
                         = prop (VObj props) k).
  { intros x. cbn [assign delete prop].
    rewrite lookup_delete_field, lookup_set_field.
    destruct (String.eqb_spec "reasoning_content" k) as [E | _]; [now subst |].
    destruct (String.eqb_spec "content" k) as [E | _]; [now subst | reflexivity]. }
  assert (Hchanged : forall x,
            delta_field k (Event (with_delta
              (fun d => delete "reasoning_content" (assign "content" x d)) data))
            = prop (VObj props) k).
  { intros x. unfold delta_field. rewrite (delta_after _ data props Hdelta).
    unfold opt_get. cbn [assign delete nullish]. apply Hf. }
  unfold process_line, transform.
  rewrite Hdata, Hdone, Hparse, Hdelta. cbn [truthy].
  destruct (SHOW_REASONING cfg).
  - destruct (splice started _ _) as [[combined | e] s1]; [| discriminate].
    destruct (truthy combined); intros H; injection H as <- _.
    + apply Hchanged.
    + unfold delta_field. now rewrite (delta_read data props Hdelta).
  - intros H; injection H as <- _. apply Hchanged.
Qed.

Lemma other_delta_fields_kept_witness :
  delta_field "role"
    (Event (VObj [("choices",
                   VArr [VObj [("delta", VObj [("role", VStr "assistant");
                                              ("content", VStr "Hi")])]])]))
  = prop (VObj [("role", VStr "assistant"); ("content", VStr "Hi")]) "role".
Proof.
  apply (other_delta_fields_kept source_config false false
           ("data: " ++ q "{'choices':[{'delta':{'role':'assistant','content':'Hi'}}]}")
           (VObj [("choices",
                   VArr [VObj [("delta", VObj [("role", VStr "assistant");
                                              ("content", VStr "Hi")])]])])
           (VObj [("choices",
                   VArr [VObj [("delta", VObj [("role", VStr "assistant");
                                              ("content", VStr "Hi")])]])])
           [("role", VStr "assistant"); ("content", VStr "Hi")] "role");
    try reflexivity; discriminate.
Defined.

(** An event that has no delta (a falsy [choices[0].delta], or no choices
    at all) is sent on as it was parsed, under both toggles, and
    [reasoningStarted] keeps its value. *)
Theorem event_without_delta_unchanged (cfg : Config) (started : bool) (line : string)
  (data : value) :
  JSString.startsWith line "data: " = true ->
  JSString.includes line "[DONE]" = false ->
  JSON.parse (JSString.slice 6 line) = Some data ->
  nullish data = false ->
  truthy (opt_get (opt_get (prop data "choices") "0") "delta") = false ->
  process_line cfg started line = ([Event data], started).
Proof.
  intros Hdata Hdone Hparse Hn Hdelta.
  unfold process_line, transform, delta_of, get.
  rewrite Hdata, Hdone, Hparse, Hn. cbn [bind]. now rewrite Hdelta.
Qed.

Lemma event_without_delta_unchanged_witness :
  process_line Examples.display_on true ("data: " ++ q "{'usage':{'total_tokens':7}}")
  = ([Event (VObj [("usage", VObj [("total_tokens", VNum 7 0)])])], true).
Proof.
  apply (event_without_delta_unchanged Examples.display_on true
           ("data: " ++ q "{'usage':{'total_tokens':7}}")
           (VObj [("usage", VObj [("total_tokens", VNum 7 0)])]));
    reflexivity.
Defined.

End SpliceTheorems.

(** * Further properties of the model selection and of the chat branch *)

Section ChatTheorems.
Import JS Proxy.

Variables (cfg : Config) (now : Z) (net : network).

(** A name that is neither a key of the mapping nor a name inherited from
    [Object.prototype], and that the backend answers with a 2xx when probed,
    is used as it is; the probe is the one call made. *)
Theorem probe_confirmed_name_is_kept (name : string) :
  mapped name MODEL_MAPPING = None ->
  lookup name Object_prototype = None ->
  probe_confirms net (VStr name) = true ->
  name <> "" ->
  resolve net (VStr name) = (Ok (VStr name), [probe_payload (VStr name)]).
Proof.
  intros Hmap Hproto Hprobe Hname.
  unfold resolve. rewrite (mapping_at_unknown name Hmap Hproto). cbn [truthy].
  unfold probe_confirms in Hprobe. unfold axios_post.
  destruct (net (probe_payload (VStr name))) as [status data chunks | msg];
    [| discriminate].
  assert (H500 : (status <? 500)%Z = true).
  { apply andb_true_iff in Hprobe as [_ H]. apply Z.ltb_lt in H. apply Z.ltb_lt. lia. }
  rewrite H500. cbn [resp_status]. rewrite Hprobe. cbn [truthy].
  now destruct (String.eqb_spec name "").
Qed.

(** What the handler does with a request that reaches the chat branch. *)
Lemma handler_chat (req : request) :
  reaches_chat req = true ->
  handler cfg now net req =
  match chat cfg now net corsHeaders req with
  | (Ok r, calls) => (r, calls)
  | (Throw e, calls) =>
      let message := if String.eqb (error_message e) "" then "Internal server error"
                     else error_message e in
      (mkResponseOut (error_status e) corsHeaders
         (Json (error_envelope message (error_status e))), calls)
  end.
Proof.
  unfold reaches_chat, is_chat, is_health, path_of, handler. intros H.
  repeat (apply andb_true_iff in H as [H ?]).
  repeat match goal with
         | Hb : negb _ = true |- _ => apply negb_true_iff in Hb
         end.
  repeat match goal with
         | Hb : _ = _ |- _ => rewrite Hb
         end.
  reflexivity.
Qed.

(** A model that is not a text, for which [MODEL_MAPPING[model]] is
    [undefined] (its text is neither a key of the mapping nor a name
    inherited from [Object.prototype]) and that the probe does not confirm
    cannot be classified: the request is answered with status 500 and the
    error envelope, and the completion request itself is never posted.  A
    body without [model] is such a request. *)
Theorem unusable_model_is_500 (req : request) :
  reaches_chat req = true ->
  nullish (body req) = false ->
  (forall s, prop (body req) "model" <> VStr s) ->
  MODEL_MAPPING_at (prop (body req) "model") = Ok VUndefined ->
  probe_confirms net (prop (body req) "model") = false ->
  exists message,
    handler cfg now net req =
    (mkResponseOut 500 corsHeaders (Json (error_envelope message 500)),
     [probe_payload (prop (body req) "model")]).
Proof.
  intros Hroute Hbody Htext Hmap Hprobe.
  rewrite (handler_chat req Hroute). unfold chat. rewrite Hbody.
  unfold resolve. rewrite Hmap. cbn [truthy].
  rewrite (probe_rejected net _ Hprobe). cbn [truthy].
  destruct (prop (body req) "model") as [| | b | m e | s | es | ps | f] eqn:Hm;
    try (eexists; reflexivity).
  now destruct (Htext s).
Qed.

Lemma chat_mapped (req : request) (name backend : string) :
  nullish (body req) = false ->
  prop (body req) "model" = VStr name ->
  mapped name MODEL_MAPPING = Some backend ->
  chat cfg now net corsHeaders req =
  match axios_post net default_validateStatus (request_for cfg backend req) with
  | Throw e => (Throw e, [request_for cfg backend req])
  | Ok r =>
      if truthy (prop (body req) "stream") then
        (Ok (mkResponseOut 200 (corsHeaders ++ stream_headers)%list
               (EventStream (Stream.transduce cfg (resp_chunks r)))),
         [request_for cfg backend req])
      else
        (bind (openaiResponse cfg now (VStr name) (resp_data r)) (fun v =>
         Ok (mkResponseOut 200 corsHeaders (Json v))),
         [request_for cfg backend req])
  end.
Proof.
  intros Hbody Hmodel Hmap. unfold chat. rewrite Hbody, Hmodel.
  unfold resolve. rewrite (mapping_at_key name backend Hmap). cbn [truthy].
  now rewrite (mapped_not_empty name backend Hmap).
Qed.

(** A status of the backend that is not a 2xx is the status of the
    response, and the code of its error envelope; nothing is retried. *)
Theorem backend_status_is_passed_on (req : request) (name backend : string)
  (status : Z) (data : value) (chunks : list Buffer.t) :
  reaches_chat req = true ->
  nullish (body req) = false ->
  prop (body req) "model" = VStr name ->
  mapped name MODEL_MAPPING = Some backend ->
  net (request_for cfg backend req) = Reply status data chunks ->
  default_validateStatus status = false ->
  status <> 0%Z ->
  handler cfg now net req =
  (mkResponseOut status corsHeaders
     (Json (error_envelope ("Request failed with status code " ++ Number_toString status 0)
              status)),
   [request_for cfg backend req]).
Proof.
  intros Hroute Hbody Hmodel Hmap Hnet Hstatus Hz.
  rewrite (handler_chat req Hroute), (chat_mapped req name backend Hbody Hmodel Hmap).
  unfold axios_post. rewrite Hnet, Hstatus.
  cbn [error_status error_message].
  destruct (Z.eqb_spec status 0); [contradiction | reflexivity].
Qed.

(** When the backend cannot be reached the response has status 500 and the
    message of the failure. *)
Theorem network_failure_is_500 (req : request) (name backend msg : string) :
  reaches_chat req = true ->
  nullish (body req) = false ->
  prop (body req) "model" = VStr name ->
  mapped name MODEL_MAPPING = Some backend ->
  net (request_for cfg backend req) = NetworkError msg ->
  handler cfg now net req =
  (mkResponseOut 500 corsHeaders
     (Json (error_envelope (if String.eqb msg "" then "Internal server error" else msg) 500)),
   [request_for cfg backend req]).
Proof.
  intros Hroute Hbody Hmodel Hmap Hnet.
  rewrite (handler_chat req Hroute), (chat_mapped req name backend Hbody Hmodel Hmap).
  unfold axios_post. now rewrite Hnet.
Qed.

(** A streamed answer: status 200, the CORS headers followed by the three
    headers of an event stream, and for body the writes of the stream handler
    on the chunks of the backend, started afresh. *)
Theorem streamed_answer (req : request) (name backend : string)
  (status : Z) (data : value) (chunks : list Buffer.t) :
  reaches_chat req = true ->
  nullish (body req) = false ->
  prop (body req) "model" = VStr name ->
  mapped name MODEL_MAPPING = Some backend ->
  truthy (prop (body req) "stream") = true ->
  net (request_for cfg backend req) = Reply status data chunks ->
  default_validateStatus status = true ->
  handler cfg now net req =
  (mkResponseOut 200
     [ ("Access-Control-Allow-Origin", "*");
       ("Access-Control-Allow-Methods", "GET, POST, OPTIONS");
       ("Access-Control-Allow-Headers", "Content-Type, Authorization");
       ("Content-Type", "text/event-stream");
       ("Cache-Control", "no-cache");
       ("Connection", "keep-alive") ]
     (EventStream (fst (Stream.feed cfg Stream.initial chunks))),
   [request_for cfg backend req]).
Proof.
  intros Hroute Hbody Hmodel Hmap Hstream Hnet Hstatus.
  rewrite (handler_chat req Hroute), (chat_mapped req name backend Hbody Hmodel Hmap).
  unfold axios_post. rewrite Hnet, Hstatus, Hstream. reflexivity.
Qed.

End ChatTheorems.

Section ChatWitnesses.
Import JS Proxy ChatExamples.

Lemma probe_confirmed_name_is_kept_witness :
  resolve (fun _ => Reply 200 VNull []) (VStr "meta/llama-3.3-70b-instruct")
  = (Ok (VStr "meta/llama-3.3-70b-instruct"),
     [probe_payload (VStr "meta/llama-3.3-70b-instruct")]).
Proof.
  apply (probe_confirmed_name_is_kept (fun _ => Reply 200 VNull [])
           "meta/llama-3.3-70b-instruct");
    [reflexivity | reflexivity | reflexivity | discriminate].
Defined.

Lemma unusable_model_is_500_witness :
  exists message,
    handler source_config 0 (fun _ => Reply 404 VNull []) (ask [("messages", user_says_hi)])
    = (mkResponseOut 500 corsHeaders (Json (error_envelope message 500)),
       [probe_payload VUndefined]).
Proof.
  apply (unusable_model_is_500 source_config 0%Z (fun _ => Reply 404 VNull [])
           (ask [("messages", user_says_hi)])); try reflexivity.
  intros s. discriminate.
Defined.

Lemma backend_status_is_passed_on_witness :
  handler source_config 0 (fun _ => Reply 429 VNull [])
    (ask [("model", VStr "gpt-4"); ("messages", user_says_hi)])
  = (mkResponseOut 429 corsHeaders
       (Json (error_envelope "Request failed with status code 429" 429)),
     [request_for source_config "qwen/qwen3-coder-480b-a35b-instruct"
        (ask [("model", VStr "gpt-4"); ("messages", user_says_hi)])]).
Proof.
  apply (backend_status_is_passed_on source_config 0%Z (fun _ => Reply 429 VNull [])
           (ask [("model", VStr "gpt-4"); ("messages", user_says_hi)])
           "gpt-4" "qwen/qwen3-coder-480b-a35b-instruct" 429%Z VNull []);
    try reflexivity.
  discriminate.
Defined.

Lemma network_failure_is_500_witness :
  handler source_config 0 (fun _ => NetworkError "connect ECONNREFUSED")
    (ask [("model", VStr "gpt-4"); ("messages", user_says_hi)])
  = (mkResponseOut 500 corsHeaders (Json (error_envelope "connect ECONNREFUSED" 500)),
     [request_for source_config "qwen/qwen3-coder-480b-a35b-instruct"
        (ask [("model", VStr "gpt-4"); ("messages", user_says_hi)])]).
Proof.
  apply (network_failure_is_500 source_config 0%Z (fun _ => NetworkError "connect ECONNREFUSED")
           (ask [("model", VStr "gpt-4"); ("messages", user_says_hi)])
           "gpt-4" "qwen/qwen3-coder-480b-a35b-instruct" "connect ECONNREFUSED");
    reflexivity.
Defined.

Lemma streamed_answer_witness :
  handler source_config 0 (fun _ => Reply 200 VNull [Examples.hi])
    (ask [("model", VStr "gpt-4"); ("messages", user_says_hi); ("stream", VBool true)])
  = (mkResponseOut 200
       [ ("Access-Control-Allow-Origin", "*");
         ("Access-Control-Allow-Methods", "GET, POST, OPTIONS");
         ("Access-Control-Allow-Headers", "Content-Type, Authorization");
         ("Content-Type", "text/event-stream");
         ("Cache-Control", "no-cache");
         ("Connection", "keep-alive") ]
       (EventStream (fst (Stream.feed source_config Stream.initial [Examples.hi]))),
     [request_for source_config "qwen/qwen3-coder-480b-a35b-instruct"
        (ask [("model", VStr "gpt-4"); ("messages", user_says_hi); ("stream", VBool true)])]).
Proof.
  apply (streamed_answer source_config 0%Z (fun _ => Reply 200 VNull [Examples.hi])
           (ask [("model", VStr "gpt-4"); ("messages", user_says_hi); ("stream", VBool true)])
           "gpt-4" "qwen/qwen3-coder-480b-a35b-instruct" 200%Z VNull [Examples.hi]);
    reflexivity.
Defined.

End ChatWitnesses.

(** * Further properties of the answer that is not streamed *)

Section AnswerTheorems.
Import JS Proxy.

Variable cfg : Config.

Lemma choice_shape (c c' : value) :
  choice cfg c = Ok c' ->
  prop c' "index" = prop c "index" /\
  prop c' "finish_reason" = prop c "finish_reason" /\
  exists role content, prop c' "message" = VObj [("role", role); ("content", content)].
Proof.
  unfold choice.
  destruct (get c "message") as [message | e]; [| discriminate]. cbn [bind].
  match goal with
  | |- bind ?text _ = _ -> _ => destruct text as [fullContent1 | e]; [| discriminate]
  end. cbn [bind].
  destruct (get message "role") as [role | e]; [| discriminate]. cbn [bind].
  intros H. injection H as <-.
  split; [reflexivity | split; [reflexivity | do 2 eexists; reflexivity]].
Qed.

(** The choices of the answer are those of the backend, one for one and in
    the same order, each with the [index] and the [finish_reason] it came
    with; the message of a choice has a [role] and a [content] and nothing
    else, so a [reasoning_content] never leaves as a field. *)
Theorem choices_keep_order (cs cs' : list value) :
  map_choices cfg cs = Ok cs' ->
  length cs' = length cs /\
  map (fun c => prop c "index") cs' = map (fun c => prop c "index") cs /\
  map (fun c => prop c "finish_reason") cs' = map (fun c => prop c "finish_reason") cs /\
  forallb (fun c => negb (has "reasoning_content" (prop c "message"))) cs' = true.
Proof.
  revert cs'. induction cs as [|c cs IH]; intros cs' H.
  - injection H as <-. repeat split.
  - cbn [map_choices] in H.
    destruct (choice cfg c) as [c1 | e] eqn:Hc; [| discriminate]. cbn [bind] in H.
    destruct (map_choices cfg cs) as [cs1 | e]; [| discriminate]. cbn [bind] in H.
    injection H as <-.
    destruct (IH cs1 eq_refl) as (Hlen & Hi & Hf & Hr).
    destruct (choice_shape c c1 Hc) as (Hi1 & Hf1 & role & content & Hm).
    cbn [length map forallb]. rewrite Hlen, Hi, Hf, Hi1, Hf1, Hr, Hm.
    repeat split.
Qed.

(** The text of a choice that has reasoning: with the display off it is the
    content alone; with the display on it is the reasoning between
    "<think>\n" and "\n</think>\n\n", then the content. *)
Theorem choice_text (cp mp : list (string * value)) (r t : string) :
  lookup "message" cp = Some (VObj mp) ->
  prop (VObj mp) "reasoning_content" = VStr r ->
  prop (VObj mp) "content" = VStr t ->
  r <> "" ->
  exists c',
    choice cfg (VObj cp) = Ok c' /\
    prop (prop c' "message") "content"
    = VStr (if SHOW_REASONING cfg
            then (("<think>" ++ nl ++ r) ++ nl ++ "</think>" ++ nl ++ nl) ++ t
            else t).
Proof.
  intros Hm Hr Ht Hne. unfold choice, get. cbn [nullish prop bind].
  rewrite Hm. cbn [nullish bind].
  unfold opt_get. cbn [nullish]. rewrite Hr, Ht.
  assert (Hor : or (VStr t) (VStr "") = VStr t).
  { unfold or. cbn [truthy]. now destruct (String.eqb_spec t "") as [-> |]. }
  rewrite Hor. cbn [truthy].
  destruct (String.eqb_spec r ""); [contradiction |].
  destruct (SHOW_REASONING cfg); eexists; (split; [reflexivity |]); reflexivity.
Qed.

(** A choice that is null, or that has no message, makes the whole answer
    fail: no partial list of choices is ever produced. *)
Theorem choice_without_message_throws (cs : list value) (c : value) :
  In c cs ->
  nullish (opt_get c "message") = true ->
  exists e, map_choices cfg cs = Throw e.
Proof.
  intros Hin Hbad.
  assert (Hc : exists e, choice cfg c = Throw e).
  { unfold choice, get. unfold opt_get in Hbad.
    destruct (nullish c); [eexists; reflexivity |].
    cbn [bind]. unfold opt_get. rewrite Hbad. cbn [truthy].
    rewrite andb_false_r. cbn [bind]. eexists; reflexivity. }
  induction cs as [|x cs IH]; [contradiction |].
  cbn [map_choices]. destruct Hin as [-> | Hin].
  - destruct Hc as [e ->]. eexists; reflexivity.
  - destruct (choice cfg x); [| eexists; reflexivity]. cbn [bind].
    destruct (IH Hin) as [e ->]. eexists; reflexivity.
Qed.

(** The envelope of an answer: it names the model the client asked for, its
    usage is the usage of the backend when that is truthy and three zeros
    when it is not, and its choices are the transformed choices of the
    backend. *)
Theorem answer_envelope (now : Z) (model data v : value) :
  openaiResponse cfg now model data = Ok v ->
  prop v "object" = VStr "chat.completion" /\
  prop v "model" = model /\
  prop v "usage" = (if truthy (prop data "usage") then prop data "usage" else no_usage) /\
  exists cs cs',
    prop data "choices" = VArr cs /\ map_choices cfg cs = Ok cs' /\
    prop v "choices" = VArr cs'.
Proof.
  unfold openaiResponse, get.
  destruct (nullish data); [discriminate |]. cbn [bind].
  destruct (prop data "choices") as [| | b | m e | s | cs | ps | f] eqn:Hch; try discriminate.
  destruct (map_choices cfg cs) as [cs' | e] eqn:Hcs; [| discriminate]. cbn [bind].
  intros H. injection H as <-.
  split; [reflexivity | split; [reflexivity | split; [reflexivity |]]].
  exists cs, cs'. split; [reflexivity | split; [exact Hcs | reflexivity]].
Qed.

(** An answer of the backend whose [choices] is not an array cannot be
    transformed. *)
Theorem answer_without_choices_throws (now : Z) (model data : value) :
  (forall cs, prop data "choices" <> VArr cs) ->
  exists e, openaiResponse cfg now model data = Throw e.
Proof.
  intros H. unfold openaiResponse, get.
  destruct (nullish data); [eexists; reflexivity |]. cbn [bind].
  destruct (prop data "choices") as [| | b | m e | s | cs | ps | f];
    try (eexists; reflexivity).
  now destruct (H cs).
Qed.

End AnswerTheorems.

Section AnswerWitnesses.
Import JS Proxy.

Lemma choices_keep_order_witness :
  let cs := [ VObj [("index", VNum 0 0); ("message", VObj [("role", VStr "assistant");
                                                         ("content", VStr "a")]);
                    ("finish_reason", VStr "stop")];
              VObj [("index", VNum 1 0); ("message", VObj [("role", VStr "assistant");
                                                         ("content", VNull);
                                                         ("reasoning_content", VStr "r")]);
                    ("finish_reason", VStr "length")] ] in
  let cs' := [ VObj [("index", VNum 0 0); ("message", VObj [("role", VStr "assistant");
                                                          ("content", VStr "a")]);
                     ("finish_reason", VStr "stop")];
               VObj [("index", VNum 1 0); ("message", VObj [("role", VStr "assistant");
                                                          ("content", VStr "")]);
                     ("finish_reason", VStr "length")] ] in
  length cs' = length cs /\
  map (fun c => prop c "index") cs' = map (fun c => prop c "index") cs /\
  map (fun c => prop c "finish_reason") cs' = map (fun c => prop c "finish_reason") cs /\
  forallb (fun c => negb (has "reasoning_content" (prop c "message"))) cs' = true.
Proof.
  intros cs cs'. apply (choices_keep_order source_config cs cs'). reflexivity.
Defined.

Lemma choice_text_witness :
  exists c',
    choice Examples.display_on
      (VObj [("message", VObj [("role", VStr "assistant"); ("content", VStr "so");
                               ("reasoning_content", VStr "why")])])
    = Ok c' /\
    prop (prop c' "message") "content"
    = VStr ((("<think>" ++ nl ++ "why") ++ nl ++ "</think>" ++ nl ++ nl) ++ "so").
Proof.
  apply (choice_text Examples.display_on
           [("message", VObj [("role", VStr "assistant"); ("content", VStr "so");
                              ("reasoning_content", VStr "why")])]
           [("role", VStr "assistant"); ("content", VStr "so");
            ("reasoning_content", VStr "why")] "why" "so");
    try reflexivity.
  discriminate.
Defined.

Lemma choice_without_message_throws_witness :
  exists e, map_choices source_config
              [VObj [("message", VObj [("role", VStr "assistant")])]; VNull] = Throw e.
Proof.
  apply (choice_without_message_throws source_config
           [VObj [("message", VObj [("role", VStr "assistant")])]; VNull] VNull).
  - right. left. reflexivity.
  - reflexivity.
Defined.

Lemma answer_envelope_witness :
  let v := VObj [ ("id", VStr "chatcmpl-1700000000000");
                  ("object", VStr "chat.completion");
                  ("created", VNum 1700000000 0);
                  ("model", VStr "gpt-4");
                  ("choices", VArr []);
                  ("usage", no_usage) ] in
  prop v "object" = VStr "chat.completion" /\
  prop v "model" = VStr "gpt-4" /\
  prop v "usage" = no_usage /\
  exists cs cs',
    prop (VObj [("choices", VArr [])]) "choices" = VArr cs /\
    map_choices source_config cs = Ok cs' /\
    prop v "choices" = VArr cs'.
Proof.
  intros v.
  apply (answer_envelope source_config 1700000000000%Z (VStr "gpt-4")
           (VObj [("choices", VArr [])]) v).
  reflexivity.
Defined.

End AnswerWitnesses.

(** * Further properties of the routing *)

Section RouteTheorems.
Import JS Proxy.

Variables (cfg : Config) (now : Z) (net : network).

(** An answer that is not streamed: status 200, the CORS headers, and the
    envelope made from the body of the backend, which names the model the
    client asked for and not the one the request was sent to. *)
Theorem plain_answer (req : request) (name backend : string)
  (status : Z) (data v : value) (chunks : list Buffer.t) :
  reaches_chat req = true ->
  nullish (body req) = false ->
  prop (body req) "model" = VStr name ->
  mapped name MODEL_MAPPING = Some backend ->
  truthy (prop (body req) "stream") = false ->
  net (request_for cfg backend req) = Reply status data chunks ->
  default_validateStatus status = true ->
  openaiResponse cfg now (VStr name) data = Ok v ->
  handler cfg now net req
    = (mkResponseOut 200 corsHeaders (Json v), [request_for cfg backend req]) /\
  prop v "model" = VStr name /\
  prop (request_for cfg backend req) "model" = VStr backend.
Proof.
  intros Hroute Hbody Hmodel Hmap Hstream Hnet Hstatus Hv.
  rewrite (handler_chat cfg now net req Hroute),
    (chat_mapped cfg now net req name backend Hbody Hmodel Hmap).
  unfold axios_post. rewrite Hnet, Hstatus, Hstream. cbn [resp_data]. rewrite Hv.
  split; [reflexivity |].
  split; [| reflexivity].
  unfold openaiResponse in Hv.
  destruct (get data "choices") as [choices | e]; [| discriminate]. cbn [bind] in Hv.
  destruct choices as [| | b | m e | s | cs | ps | f]; try discriminate.
  destruct (map_choices cfg cs) as [cs' | e]; [| discriminate]. cbn [bind] in Hv.
  now injection Hv as <-.
Qed.

(** A 2xx answer of the backend whose body has no array of choices is
    answered with status 500 and the error envelope. *)
Theorem malformed_answer_is_500 (req : request) (name backend : string)
  (status : Z) (data : value) (chunks : list Buffer.t) :
  reaches_chat req = true ->
  nullish (body req) = false ->
  prop (body req) "model" = VStr name ->
  mapped name MODEL_MAPPING = Some backend ->
  truthy (prop (body req) "stream") = false ->
  net (request_for cfg backend req) = Reply status data chunks ->
  default_validateStatus status = true ->
  (forall cs, prop data "choices" <> VArr cs) ->
  exists message,
    handler cfg now net req
    = (mkResponseOut 500 corsHeaders (Json (error_envelope message 500)),
       [request_for cfg backend req]).
Proof.
  intros Hroute Hbody Hmodel Hmap Hstream Hnet Hstatus Hbad.
  rewrite (handler_chat cfg now net req Hroute),
    (chat_mapped cfg now net req name backend Hbody Hmodel Hmap).
  unfold axios_post. rewrite Hnet, Hstatus, Hstream. cbn [resp_data].
  unfold openaiResponse, get.
  destruct (nullish data); [eexists; reflexivity |]. cbn [bind].
  destruct (prop data "choices") as [| | b | m e | s | cs | ps | f];
    try (eexists; reflexivity).
  now destruct (Hbad cs).
Qed.

(** The list of models: one entry for each key of the mapping, in the order
    of the mapping, whatever the method (OPTIONS apart); nothing is posted to
    the backend. *)
Theorem models_route (req : request) :
  String.eqb (method req) "OPTIONS" = false ->
  is_health (path_of req) = false ->
  JSString.includes (path_of req) "/v1/models" = true ->
  exists entries,
    handler cfg now net req
    = (mkResponseOut 200 corsHeaders
         (Json (VObj [("object", VStr "list"); ("data", VArr entries)])), []) /\
    map (fun e => prop e "id") entries
      = map VStr [ "gpt-3.5-turbo"; "gpt-4"; "gpt-4-turbo"; "gpt-4o";
                   "claude-3-opus"; "claude-3-sonnet"; "gemini-pro" ] /\
    forallb (fun e => match prop e "object", prop e "owned_by", prop e "created" with
                      | VStr o, VStr w, VNum t 0 =>
                          String.eqb o "model" && String.eqb w "nvidia-nim-proxy" && Z.eqb t now
                      | _, _, _ => false
                      end) entries = true.
Proof.
  intros Hm Hh Hmodels. unfold handler.
  unfold is_health, path_of in *. rewrite Hm, Hh, Hmodels.
  eexists. split; [reflexivity |]. split; [reflexivity |].
  cbn. now rewrite Z.eqb_refl.
Qed.

(** Any other request gets status 404 and an error envelope that names the
    path; a request for the chat path that is not a POST is such a request. *)
Theorem unknown_endpoint (req : request) :
  String.eqb (method req) "OPTIONS" = false ->
  is_health (path_of req) = false ->
  JSString.includes (path_of req) "/v1/models" = false ->
  is_chat req = false ->
  handler cfg now net req
  = (mkResponseOut 404 corsHeaders
       (Json (VObj [("error", VObj [ ("message", VStr ("Endpoint " ++ path_of req ++ " not found"));
                                     ("type", VStr "invalid_request_error");
                                     ("code", VNum 404 0) ])])),
     []).
Proof.
  intros Hm Hh Hmodels Hchat. unfold handler.
  unfold is_health, is_chat, path_of in *. now rewrite Hm, Hh, Hmodels, Hchat.
Qed.

(** Every response to a request that is not an OPTIONS request carries the
    three CORS headers with the values of [corsHeaders], on every route and
    for every outcome of the backend. *)
Theorem cors_headers_present (req : request) :
  String.eqb (method req) "OPTIONS" = false ->
  let r := fst (handler cfg now net req) in
  header "Access-Control-Allow-Origin" r = Some "*" /\
  header "Access-Control-Allow-Methods" r = Some "GET, POST, OPTIONS" /\
  header "Access-Control-Allow-Headers" r = Some "Content-Type, Authorization".
Proof.
  intros Hm r.
  assert (H : exists more, headers r = (corsHeaders ++ more)%list).
  { subst r. unfold handler. rewrite Hm.
    repeat match goal with
           | |- context [if ?b then _ else _] => destruct b
           end; try (exists []; reflexivity).
    unfold chat.
    destruct (nullish (body req)); [exists []; reflexivity |].
    destruct (resolve net _) as [[nimModel | e] calls]; [| exists []; reflexivity].
    destruct (axios_post net default_validateStatus _) as [a | e];
      [| exists []; reflexivity].
    destruct (truthy _); [eexists; reflexivity |].
    destruct (openaiResponse _ _ _ _); exists []; reflexivity. }
  destruct H as [more H]. unfold header. rewrite H. repeat split.
Qed.

(** The backend is contacted for a POST on the chat path and for nothing
    else. *)
Theorem backend_only_for_chat (req : request) :
  is_chat req = false -> snd (handler cfg now net req) = [].
Proof.
  intros H. unfold handler. unfold is_chat, path_of in H. rewrite H.
  repeat match goal with
         | |- context [if ?b then _ else _] => destruct b
         end; reflexivity.
Qed.

(** No call is repeated: a request makes at most one probe and at most one
    completion request. *)
Theorem at_most_two_calls (req : request) :
  (length (snd (handler cfg now net req)) <= 2)%nat.
Proof.
  unfold handler.
  repeat match goal with
         | |- context [if ?b then _ else _] => destruct b
         end; cbn [snd length]; try lia.
  unfold chat.
  destruct (nullish (body req)); [cbn; lia |].
  assert (H : (length (snd (resolve net (prop (body req) "model"))) <= 1)%nat).
  { unfold resolve. destruct (MODEL_MAPPING_at _) as [nimModel | e]; [| cbn; lia].
    repeat match goal with
                           | |- context [if ?b then _ else _] => destruct b
                           end; cbn; lia. }
  destruct (resolve net _) as [[nimModel | e] calls]; cbn [snd] in H; [| cbn; lia].
  assert (H2 : (length (calls ++ [nimRequest cfg nimModel (prop (body req) "messages")
                   (prop (body req) "temperature") (prop (body req) "max_tokens")
                   (prop (body req) "stream")]) <= 2)%nat).
  { rewrite length_app. cbn [length]. lia. }
  destruct (axios_post net default_validateStatus _) as [a | e]; [| exact H2].
  destruct (truthy _); [exact H2 |].
  destruct (openaiResponse _ _ _ _); exact H2.
Qed.

End RouteTheorems.

Section RouteWitnesses.
Import JS Proxy ChatExamples.

Lemma plain_answer_witness :
  let req := ask [("model", VStr "gpt-4"); ("messages", user_says_hi)] in
  let v := VObj [ ("id", VStr "chatcmpl-1700000000000");
                  ("object", VStr "chat.completion");
                  ("created", VNum 1700000000 0);
                  ("model", VStr "gpt-4");
                  ("choices", VArr []);
                  ("usage", no_usage) ] in
  handler source_config 1700000000000 (fun _ => Reply 200 (VObj [("choices", VArr [])]) []) req
    = (mkResponseOut 200 corsHeaders (Json v),
       [request_for source_config "qwen/qwen3-coder-480b-a35b-instruct" req]) /\
  prop v "model" = VStr "gpt-4" /\
  prop (request_for source_config "qwen/qwen3-coder-480b-a35b-instruct" req) "model"
    = VStr "qwen/qwen3-coder-480b-a35b-instruct".
Proof.
  intros req v.
  apply (plain_answer source_config 1700000000000%Z
           (fun _ => Reply 200 (VObj [("choices", VArr [])]) [])
           req "gpt-4" "qwen/qwen3-coder-480b-a35b-instruct" 200%Z
           (VObj [("choices", VArr [])]) v []);
    reflexivity.
Defined.

Lemma malformed_answer_is_500_witness :
  exists message,
    handler source_config 0 (fun _ => Reply 200 (VObj [("error", VStr "overloaded")]) [])
      (ask [("model", VStr "gpt-4"); ("messages", user_says_hi)])
    = (mkResponseOut 500 corsHeaders (Json (error_envelope message 500)),
       [request_for source_config "qwen/qwen3-coder-480b-a35b-instruct"
          (ask [("model", VStr "gpt-4"); ("messages", user_says_hi)])]).
Proof.
  apply (malformed_answer_is_500 source_config 0%Z
           (fun _ => Reply 200 (VObj [("error", VStr "overloaded")]) [])
           (ask [("model", VStr "gpt-4"); ("messages", user_says_hi)])
           "gpt-4" "qwen/qwen3-coder-480b-a35b-instruct" 200%Z
           (VObj [("error", VStr "overloaded")]) []);
    try reflexivity.
  intros cs. discriminate.
Defined.

Lemma models_route_witness :
  exists entries,
    handler source_config 5 (fun _ => NetworkError "down")
      (mkRequest "GET" "/v1/models" VUndefined)
    = (mkResponseOut 200 corsHeaders
         (Json (VObj [("object", VStr "list"); ("data", VArr entries)])), []) /\
    map (fun e => prop e "id") entries
      = map VStr [ "gpt-3.5-turbo"; "gpt-4"; "gpt-4-turbo"; "gpt-4o";
                   "claude-3-opus"; "claude-3-sonnet"; "gemini-pro" ] /\
    forallb (fun e => match prop e "object", prop e "owned_by", prop e "created" with
                      | VStr o, VStr w, VNum t 0 =>
                          String.eqb o "model" && String.eqb w "nvidia-nim-proxy" && Z.eqb t 5
                      | _, _, _ => false
                      end) entries = true.
Proof.
  apply (models_route source_config 5%Z (fun _ => NetworkError "down")
           (mkRequest "GET" "/v1/models" VUndefined));
    reflexivity.
Defined.

Lemma unknown_endpoint_witness :
  handler source_config 0 (fun _ => NetworkError "down")
    (mkRequest "GET" "/v1/chat/completions" VUndefined)
  = (mkResponseOut 404 corsHeaders
       (Json (VObj [("error", VObj [ ("message", VStr "Endpoint /v1/chat/completions not found");
                                     ("type", VStr "invalid_request_error");
                                     ("code", VNum 404 0) ])])),
     []).
Proof.
  apply (unknown_endpoint source_config 0%Z (fun _ => NetworkError "down")
           (mkRequest "GET" "/v1/chat/completions" VUndefined));
    reflexivity.
Defined.

Lemma cors_headers_present_witness :
  let r := fst (handler source_config 0 (fun _ => NetworkError "down")
                  (ask [("model", VStr "gpt-4"); ("stream", VBool true)])) in
  header "Access-Control-Allow-Origin" r = Some "*" /\
  header "Access-Control-Allow-Methods" r = Some "GET, POST, OPTIONS" /\
  header "Access-Control-Allow-Headers" r = Some "Content-Type, Authorization".
Proof.
  apply (cors_headers_present source_config 0%Z (fun _ => NetworkError "down")
           (ask [("model", VStr "gpt-4"); ("stream", VBool true)])).
  reflexivity.
Defined.

Lemma backend_only_for_chat_witness :
  snd (handler source_config 0 (fun _ => Reply 200 VNull [])
         (mkRequest "GET" "/v1/chat/completions" (VObj [("model", VStr "gpt-4")])))
  = [].
Proof.
  apply (backend_only_for_chat source_config 0%Z (fun _ => Reply 200 VNull [])
           (mkRequest "GET" "/v1/chat/completions" (VObj [("model", VStr "gpt-4")]))).
  reflexivity.
Defined.

End RouteWitnesses.

(** * Values that cannot be converted to text *)

Section ConversionTheorems.
Import JS Stream Proxy.

Lemma unconvertible_is_truthy (v : value) : converts v = false -> truthy v = true.
Proof. destruct v; cbn; intros H; try discriminate H; reflexivity. Qed.

(** With the display on and the marker closed, a reasoning that cannot be
    converted to text (an object with an own [toString], for one) makes the
    [+] of line 156 throw: the line is written as it came, followed by one
    line feed, and [reasoningStarted] stays false. *)
Theorem unconvertible_reasoning_is_forwarded (cfg : Config) (line : string)
  (data : value) (props : list (string * value)) :
  SHOW_REASONING cfg = true ->
  JSString.startsWith line "data: " = true ->
  JSString.includes line "[DONE]" = false ->
  JSON.parse (JSString.slice 6 line) = Some data ->
  delta_of data = Ok (VObj props) ->
  converts (prop (VObj props) "reasoning_content") = false ->
  process_line cfg false line = ([Raw (line ++ nl)], false).
Proof.
  intros Hshow Hdata Hdone Hparse Hdelta Hr.
  unfold process_line, transform.
  rewrite Hdata, Hdone, Hparse, Hdelta, Hshow. cbn [truthy].
  unfold splice, concat, ToString.
  rewrite (unconvertible_is_truthy _ Hr), Hr. reflexivity.
Qed.

(** A model that cannot be converted to text makes the lookup of line 77
    throw: the request is answered with status 500 and the error envelope,
    and nothing is posted to the backend. *)
Lemma unconvertible_model_is_500 (cfg : Config) (now : Z) (net : network) (req : request) :
  reaches_chat req = true ->
  nullish (body req) = false ->
  converts (prop (body req) "model") = false ->
  exists message,
    handler cfg now net req
    = (mkResponseOut 500 corsHeaders (Json (error_envelope message 500)), []).
Proof.
  intros Hroute Hbody Hmodel.
  rewrite (handler_chat cfg now net req Hroute). unfold chat. rewrite Hbody.
  unfold resolve, MODEL_MAPPING_at, ToString. rewrite Hmodel.
  eexists. reflexivity.
Qed.

Lemma unconvertible_reasoning_is_forwarded_witness :
  process_line Examples.display_on false
    ("data: " ++ q "{'choices':[{'delta':{'reasoning_content':{'toString':0}}}]}")
  = ([Raw (("data: " ++ q "{'choices':[{'delta':{'reasoning_content':{'toString':0}}}]}") ++ nl)],
     false).
Proof.
  apply (unconvertible_reasoning_is_forwarded Examples.display_on
           ("data: " ++ q "{'choices':[{'delta':{'reasoning_content':{'toString':0}}}]}")
           (VObj [("choices",
                   VArr [VObj [("delta",
                     VObj [("reasoning_content", VObj [("toString", VNum 0 0)])])]])])
           [("reasoning_content", VObj [("toString", VNum 0 0)])]);
    reflexivity.
Defined.

End ConversionTheorems.
